(** * Verification of [audit_trail/watcher.py]

    A shallow embedding of the [AuditTrailWatcher] class of django_audit_trail:
    the field differ ([get_changes] and the two value renderers), the
    snapshotter ([serialize_object]), the five signal handlers, the cascade
    notifiers and the registration code ([contribute_to_class],
    [init_signals], [init_related_signals]).

    Python objects that the module mutates (the instance under save or
    delete, the table of audit trails, the class registry) are threaded as
    explicit state through a state-and-exception monad; a raised exception
    keeps the state reached so far, as in Python.  Django itself (model
    metadata, descriptors, managers, the database) is an external
    collaborator and enters as a [Host] record the development is
    parametric in. *)

From stdpp Require Import gmap strings list fin_maps pretty.

Set Default Proof Using "Type".

(** ** Python values, exceptions and results *)

(** The exception classes that the modelled code paths can raise. *)
Inductive exn :=
  | AttributeError
  | TypeError
  | ValueError
  | DoesNotExist
  | FieldDoesNotExist
  | RecursionError.

(** Raw and rendered field values: [None], integers and text. *)
Inductive pyval :=
  | VNone
  | VInt (n : Z)
  | VStr (s : string).

#[global] Instance exn_eq_dec : EqDecision exn.
Proof. solve_decision. Defined.

#[global] Instance pyval_eq_dec : EqDecision pyval.
Proof. solve_decision. Defined.

(** The outcome of a call that may raise. *)
Inductive Res (A : Type) :=
  | Ok (a : A)
  | Err (e : exn).
Arguments Ok {A} a.
Arguments Err {A} e.

Definition is_Err {A} (r : Res A) : Prop :=
  match r with Ok _ => False | Err _ => True end.

#[global] Instance Res_ret : MRet Res := λ A a, Ok a.
#[global] Instance Res_bind : MBind Res := λ A B f r,
  match r with
  | Ok a => f a
  | Err e => Err e
  end.

#[global] Instance Res_fmap : FMap Res := λ A B f r,
  match r with
  | Ok a => Ok (f a)
  | Err e => Err e
  end.

(** [o] is the result of a host lookup; [None] raises [e]. *)
Definition or_raise {A} (e : exn) (o : option A) : Res A :=
  match o with
  | Some a => Ok a
  | None => Err e
  end.

(** State and exceptions: a computation returns its outcome together with the
    state it reached, whether it returned or raised. *)
Definition Py (S A : Type) : Type := S → Res A * S.

#[global] Instance Py_ret {S} : MRet (Py S) := λ A a s, (Ok a, s).
#[global] Instance Py_bind {S} : MBind (Py S) := λ A B f m s,
  match m s with
  | (Ok a, s') => f a s'
  | (Err e, s') => (Err e, s')
  end.

Definition get_state {S} : Py S S := λ s, (Ok s, s).
Definition modify_state {S} (f : S → S) : Py S unit := λ s, (Ok tt, f s).
Definition lift_res {S A} (r : Res A) : Py S A := λ s, (r, s).

(** [for x in l: body(x)] *)
Fixpoint for_each {S A} (l : list A) (body : A → Py S unit) : Py S unit :=
  match l with
  | [] => mret tt
  | x :: rest => body x ;; for_each rest body
  end.

(** Truth value of a list-or-None attribute: [None] and [[]] are false. *)
Definition truthy {A} (o : option (list A)) : bool :=
  match o with
  | Some (_ :: _) => true
  | _ => false
  end.

(** [unicode(value)] for a value that is not [None]. *)
Definition py_unicode (value : pyval) : string :=
  match value with
  | VNone => "None"
  | VInt n => pretty n
  | VStr s => s
  end.

(** ** Data model *)

(** What the differ reads of a Django model field: [field.name],
    [isinstance(field, ForeignKey)] and the truth value of [field.choices]. *)
Record Field := {
  name : string;
  is_ForeignKey : bool;
  choices : bool
}.

(** What [getattr(model_class, attr_name)] can be in [init_related_signals]:
    a reverse descriptor (it has [.related], with [related.related_model] and
    [related.field.name]), a forward foreign-key descriptor (it has [.field],
    with [field.related_field.model] and [field.related_query_name()]), or
    something with neither. *)
Inductive Descriptor :=
  | ReverseDescriptor (related_model : string) (field_name : string)
  | ForwardDescriptor (related_model : string) (related_query_name : string)
  | PlainAttribute.

(** The external collaborators.  Model classes are named by strings. *)
Record Host := {
  (** [model_class._meta.fields], in declaration order *)
  meta_fields : string → list Field;
  (** [model_class._meta.get_field(field_name)]; [None] is FieldDoesNotExist *)
  meta_get_field : string → string → option Field;
  (** [unicode(getattr(model_class( **{field_name + '_id': value}), field_name))]:
      the display string of the referenced row; [None] when the descriptor's
      lookup finds no row and raises DoesNotExist *)
  related_unicode : string → string → Z → option string;
  (** [unicode(getattr(model_class( **{field_name: value}),
      'get_%s_display' % field_name)())] *)
  get_display : string → string → pyval → Res string;
  (** [int(text)]; [None] is ValueError *)
  int_of_text : string → option Z;
  (** the class attributes of a model class other than [audit] *)
  class_attr : string → string → option Descriptor
}.

(** A row of some model: what a related-object attribute evaluates to and what
    an audit trail is about. *)
Record Entity := {
  entity_model : string;
  entity_id : Z
}.

#[global] Instance Entity_eq_dec : EqDecision Entity.
Proof. solve_decision. Defined.

(** The value of a relation attribute of an instance: no such attribute,
    [None], a related object (it has [_meta]) or a related manager.  A manager
    carries the model it ranges over, the ids that [.all()] enumerates under
    its own filter (the live relation) and the ids of the rows of that model
    currently stored, in query order, which is what [.all()] ranges over once
    [core_filters] has been replaced.  These are the outcomes of an evaluation
    that returns or raises AttributeError; an instance one of whose relations
    raises something else when read (a forward key whose row is gone raises
    DoesNotExist) is not described by this type. *)
Inductive Attr :=
  | AttrMissing
  | AttrNone
  | AttrObject (o : Entity)
  | AttrManager (model : string) (live : list Z) (stored : list Z).

Record Instance := {
  inst_model : string;
  inst_id : Z;
  (** [field.value_from_object(instance)], by field name *)
  field_values : string → pyval;
  attrs : string → Attr;
  (** the attribute [_original_values]; [None] when it was never set *)
  _original_values : option (gmap string pyval);
  (** the attribute [_audit_ids_to_notify_related_deletion] *)
  _audit_ids_to_notify_related_deletion : option (gmap string (list Z))
}.

Record Change := {
  old_value : pyval;
  new_value : pyval
}.

#[global] Instance Change_eq_dec : EqDecision Change.
Proof. solve_decision. Defined.

Inductive Action :=
  | Created
  | Updated
  | Deleted
  | RelatedChange.

#[global] Instance Action_eq_dec : EqDecision Action.
Proof. solve_decision. Defined.

(** Modelled from the spec: the [AuditTrail] model of [models.py], which is
    not part of the sources at hand.  A history record has a subject, an
    event kind, a change set and an optional reference to another record;
    the reference is the position of that record in the table. *)
Record AuditTrail := {
  content_object : Entity;
  action : Action;
  changes : gmap string Change;
  related_trail : option nat
}.

(** The watcher object, with the attributes [__init__] gives it. *)
Record AuditTrailWatcher := {
  model_class : option string;
  fields : option (list string);
  notify_related : option (list string);
  track_related : option (list string);
  track_only_with_related : bool;
  excluded_fields : list string
}.

(** [AuditTrailWatcher.__init__] *)
Definition __init__ (fields track_related notify_related : option (list string))
    (track_only_with_related : bool) (excluded_fields : option (list string))
    : AuditTrailWatcher :=
  {| model_class := None;
     fields := fields;
     notify_related := notify_related;
     track_related := track_related;
     track_only_with_related := track_only_with_related;
     excluded_fields :=
       if truthy excluded_fields then "id" :: default [] excluded_fields
       else ["id"] |}.

(** The state of one save or delete: the settings flag, the instance the
    signal is sent for, and the table of persisted audit trails. *)
Record World := {
  DISABLE_AUDIT_TRAIL : bool;
  instance : Instance;
  trails : list AuditTrail
}.

Definition set_original_values (data : gmap string pyval) (i : Instance) : Instance :=
  {| inst_model := inst_model i;
     inst_id := inst_id i;
     field_values := field_values i;
     attrs := attrs i;
     _original_values := Some data;
     _audit_ids_to_notify_related_deletion := _audit_ids_to_notify_related_deletion i |}.

Definition set_audit_ids (ids : gmap string (list Z)) (i : Instance) : Instance :=
  {| inst_model := inst_model i;
     inst_id := inst_id i;
     field_values := field_values i;
     attrs := attrs i;
     _original_values := _original_values i;
     _audit_ids_to_notify_related_deletion := Some ids |}.

Definition set_attrs (a : string → Attr) (i : Instance) : Instance :=
  {| inst_model := inst_model i;
     inst_id := inst_id i;
     field_values := field_values i;
     attrs := a;
     _original_values := _original_values i;
     _audit_ids_to_notify_related_deletion := _audit_ids_to_notify_related_deletion i |}.

Definition update_instance (f : Instance → Instance) : Py World unit :=
  modify_state (λ s,
    {| DISABLE_AUDIT_TRAIL := DISABLE_AUDIT_TRAIL s;
       instance := f (instance s);
       trails := trails s |}).

Definition entity_of (i : Instance) : Entity :=
  {| entity_model := inst_model i; entity_id := inst_id i |}.

(** Modelled from the spec: the manager methods
    [AuditTrail.objects.generate_trail_for_instance_created] and its three
    siblings, defined in [models.py].  Each builds an unsaved record of the
    kind its name says, about the object it is given, with an empty change
    set and no related record. *)
Definition generate_trail (kind : Action) (subject : Entity) : AuditTrail :=
  {| content_object := subject; action := kind; changes := ∅; related_trail := None |}.

Definition with_changes (d : gmap string Change) (t : AuditTrail) : AuditTrail :=
  {| content_object := content_object t; action := action t;
     changes := d; related_trail := related_trail t |}.

Definition with_related_trail (r : nat) (t : AuditTrail) : AuditTrail :=
  {| content_object := content_object t; action := action t;
     changes := changes t; related_trail := Some r |}.

(** Modelled from the spec: [audit_trail.save()] of [models.py] persists the
    record, appending it to the table; the result is the position the record
    got, by which later records refer to it. *)
Definition save (t : AuditTrail) : Py World nat := λ s,
  (Ok (length (trails s)),
   {| DISABLE_AUDIT_TRAIL := DISABLE_AUDIT_TRAIL s;
      instance := instance s;
      trails := trails s ++ [t] |}).

(** ** The differ, the snapshotter and the signal handlers *)

Section watcher.
Variable H : Host.

(** [int(value)] *)
Definition py_int (value : pyval) : Res Z :=
  match value with
  | VNone => Err TypeError
  | VInt n => Ok n
  | VStr s => or_raise ValueError (int_of_text H s)
  end.

(** [serialize_object]: the loop over [instance._meta.fields] *)
Definition serialize_object (self : AuditTrailWatcher) (instance : Instance)
    : gmap string pyval :=
  foldl (λ data field,
    let not_tracked_field :=
      match fields self with
      | Some l => negb (bool_decide (name field ∈ l))
      | None => false
      end in
    if not_tracked_field || bool_decide (name field ∈ excluded_fields self)
    then data
    else <[name field := field_values instance (name field)]> data)
    ∅ (meta_fields H (inst_model instance)).

Definition get_fk_value (self : AuditTrailWatcher) (field_name : string)
    (value : pyval) : Res pyval :=
  match value with
  | VNone => Ok VNone
  | _ =>
    value ← py_int value;
    cls ← or_raise TypeError (model_class self);
    string ← or_raise DoesNotExist (related_unicode H cls field_name value);
    Ok (VStr ("[#" +:+ pretty value +:+ "] " +:+ string))
  end.

Definition get_choice_value (self : AuditTrailWatcher) (field_name : string)
    (value : pyval) : Res pyval :=
  match value with
  | VNone => Ok VNone
  | _ =>
    cls ← or_raise TypeError (model_class self);
    display ← get_display H cls field_name value;
    Ok (VStr ("[#" +:+ py_unicode value +:+ "] " +:+ display))
  end.

(** The body of the loop of [get_changes] for one field name: the new
    [diff]. *)
Definition get_changes_field (self : AuditTrailWatcher) (cls : string)
    (old_values new_values : gmap string pyval)
    (diff : gmap string Change) (field_name : string)
    : Res (gmap string Change) :=
  let old_value := default VNone (old_values !! field_name) in
  let new_value := default VNone (new_values !! field_name) in
  field ← or_raise FieldDoesNotExist (meta_get_field H cls field_name);
  '(old_value, new_value) ←
    (if is_ForeignKey field then
       old_value ← get_fk_value self field_name old_value;
       new_value ← get_fk_value self field_name new_value;
       Ok (old_value, new_value)
     else Ok (old_value, new_value));
  '(old_value, new_value) ←
    (if choices field then
       old_value ← get_choice_value self field_name old_value;
       new_value ← get_choice_value self field_name new_value;
       Ok (old_value, new_value)
     else Ok (old_value, new_value));
  if bool_decide (old_value ≠ new_value)
  then Ok (<[field_name := {| old_value := old_value; new_value := new_value |}]> diff)
  else Ok diff.

Fixpoint get_changes_loop (self : AuditTrailWatcher) (cls : string)
    (old_values new_values : gmap string pyval)
    (field_names : list string) (diff : gmap string Change)
    : Res (gmap string Change) :=
  match field_names with
  | [] => Ok diff
  | field_name :: rest =>
    diff ← get_changes_field self cls old_values new_values diff field_name;
    get_changes_loop self cls old_values new_values rest diff
  end.

(** The names [get_changes] iterates: [self.fields or [all field names]]. *)
Definition diff_fields (self : AuditTrailWatcher) (cls : string) : list string :=
  match fields self with
  | Some (f :: l) => f :: l
  | _ => name <$> meta_fields H cls
  end.

(** [get_changes].  [old_values or {}] maps [None] to the empty dict.  With
    [model_class] unset, [self.model_class._meta] raises AttributeError in
    the list comprehension or in the first iteration. *)
Definition get_changes (self : AuditTrailWatcher)
    (old_values new_values : option (gmap string pyval))
    : Res (gmap string Change) :=
  let old_values := default ∅ old_values in
  let new_values := default ∅ new_values in
  cls ← or_raise AttributeError (model_class self);
  get_changes_loop self cls old_values new_values (diff_fields self cls) ∅.

(** [field_name in getattr(instance, '_audit_ids_to_notify_related_deletion', {})] *)
Definition in_audit_ids (instance : Instance) (field_name : string) : bool :=
  bool_decide (is_Some
    (default ∅ (_audit_ids_to_notify_related_deletion instance) !! field_name)).

Fixpoint is_parent_object_exists_loop (instance : Instance)
    (field_names : list string) : bool :=
  match field_names with
  | [] => false
  | field_name :: rest =>
    (* getattr(instance, field_name, None) *)
    match attrs instance field_name with
    | AttrMissing | AttrNone => is_parent_object_exists_loop instance rest
    | AttrObject _ => true
    | AttrManager _ live _ =>
      if negb (bool_decide (live = [])) then true
      else if in_audit_ids instance field_name then true
      else is_parent_object_exists_loop instance rest
    end
  end.

(** [is_parent_object_exists]: iterating [None] raises TypeError. *)
Definition is_parent_object_exists (self : AuditTrailWatcher)
    (instance : Instance) : Res bool :=
  field_names ← or_raise TypeError (notify_related self);
  Ok (is_parent_object_exists_loop instance field_names).

(** [self.track_only_with_related and not self.is_parent_object_exists(instance)] *)
Definition no_parent (self : AuditTrailWatcher) (instance : Instance) : Res bool :=
  if track_only_with_related self
  then parent ← is_parent_object_exists self instance; Ok (negb parent)
  else Ok false.

(** The tail of both cascade loops: one related-change trail per notified
    object, each pointing at [audit_trail]. *)
Definition notify (audit_trail : nat) (notified_objects : list Entity)
    : Py World unit :=
  for_each notified_objects (λ notified_object,
    let parent_audit_trail := generate_trail RelatedChange notified_object in
    save (with_related_trail audit_trail parent_audit_trail) ;; mret tt).

(** [create_related_audit_trail].  [audit_trail.content_object] is the
    instance the trail was generated for. *)
Definition create_related_audit_trail (self : AuditTrailWatcher)
    (audit_trail : nat) : Py World unit :=
  if negb (truthy (notify_related self)) then mret tt
  else
    for_each (default [] (notify_related self)) (λ field_name,
      s ← get_state;
      let changed_related_object := instance s in
      match attrs changed_related_object field_name with
      | AttrMissing => lift_res (Err AttributeError)
      | AttrNone => mret tt
      | AttrObject o => notify audit_trail [o]
      | AttrManager m live _ =>
        notify audit_trail ((λ i, {| entity_model := m; entity_id := i |}) <$> live)
      end).

(** [create_deleted_related_audit_trail] *)
Definition create_deleted_related_audit_trail (self : AuditTrailWatcher)
    (audit_trail : nat) : Py World unit :=
  if negb (truthy (notify_related self)) then mret tt
  else
    for_each (default [] (notify_related self)) (λ field_name,
      s ← get_state;
      match attrs (instance s) field_name with
      | AttrMissing => lift_res (Err AttributeError)
      | AttrNone => mret tt
      | AttrObject o => notify audit_trail [o]
      | AttrManager m _ stored =>
        captured ← lift_res (or_raise AttributeError
          (_audit_ids_to_notify_related_deletion (instance s)));
        match captured !! field_name with
        | None | Some [] => mret tt
        | Some ids =>
          (* attribute.core_filters = {'id__in': ids}; attribute.all() *)
          notify audit_trail
            ((λ i, {| entity_model := m; entity_id := i |}) <$>
               filter (λ i, i ∈ ids) stored)
        end
      end).

Definition on_post_init (self : AuditTrailWatcher) : Py World unit :=
  s ← get_state;
  update_instance (set_original_values (serialize_object self (instance s))).

Definition on_post_save_create (self : AuditTrailWatcher) (created : bool)
    : Py World unit :=
  s ← get_state;
  if DISABLE_AUDIT_TRAIL s then mret tt
  else if negb created then mret tt
  else
    skip ← lift_res (no_parent self (instance s));
    if (skip : bool) then mret tt
    else
      let audit_trail := generate_trail Created (entity_of (instance s)) in
      changes ← lift_res
        (get_changes self (Some ∅) (Some (serialize_object self (instance s))));
      audit_trail ← save (with_changes changes audit_trail);
      update_instance (set_original_values (serialize_object self (instance s))) ;;
      create_related_audit_trail self audit_trail.

Definition on_post_save_update (self : AuditTrailWatcher) (created : bool)
    : Py World unit :=
  s ← get_state;
  if DISABLE_AUDIT_TRAIL s then mret tt
  else if created then mret tt
  else
    skip ← lift_res (no_parent self (instance s));
    if (skip : bool) then mret tt
    else
      original ← lift_res (or_raise AttributeError (_original_values (instance s)));
      changes ← lift_res
        (get_changes self (Some original) (Some (serialize_object self (instance s))));
      if bool_decide (changes = ∅) then mret tt
      else
        let audit_trail := generate_trail Updated (entity_of (instance s)) in
        audit_trail ← save (with_changes changes audit_trail);
        update_instance (set_original_values (serialize_object self (instance s))) ;;
        create_related_audit_trail self audit_trail.

(** The loop of [on_pre_delete] over [self.notify_related]: the new value
    of the captured-ids dict. *)
Definition on_pre_delete_field (instance : Instance)
    (captured : gmap string (list Z)) (field_name : string)
    : gmap string (list Z) :=
  match attrs instance field_name with
  | AttrMissing | AttrNone | AttrObject _ => captured
  | AttrManager _ live _ =>
    if negb (bool_decide (live = [])) then <[field_name := live]> captured
    else captured
  end.

Definition on_pre_delete (self : AuditTrailWatcher) : Py World unit :=
  s ← get_state;
  if DISABLE_AUDIT_TRAIL s then mret tt
  else if negb (truthy (notify_related self)) then mret tt
  else
    update_instance (λ i,
      set_audit_ids
        (foldl (on_pre_delete_field i) ∅ (default [] (notify_related self))) i).

Definition on_post_delete (self : AuditTrailWatcher) : Py World unit :=
  s ← get_state;
  if DISABLE_AUDIT_TRAIL s then mret tt
  else
    skip ← lift_res (no_parent self (instance s));
    if (skip : bool) then mret tt
    else
      let audit_trail := generate_trail Deleted (entity_of (instance s)) in
      changes ← lift_res
        (get_changes self (Some (serialize_object self (instance s))) (Some ∅));
      audit_trail ← save (with_changes changes audit_trail);
      create_deleted_related_audit_trail self audit_trail.

End watcher.

(** ** Registration and signal wiring *)

Inductive Signal := post_save | post_init | pre_delete | post_delete.

Inductive Handler :=
  | h_on_post_save_create
  | h_on_post_init
  | h_on_post_save_update
  | h_on_pre_delete
  | h_on_post_delete.

(** A connected receiver: a bound method of the watcher attached to
    [sender]. *)
Record Receiver := {
  signal : Signal;
  handler : Handler;
  sender : option string
}.

#[global] Instance Signal_eq_dec : EqDecision Signal.
Proof. solve_decision. Defined.
#[global] Instance Handler_eq_dec : EqDecision Handler.
Proof. solve_decision. Defined.
#[global] Instance Receiver_eq_dec : EqDecision Receiver.
Proof. solve_decision. Defined.

(** The class-level state: the class attribute [tracked_models], the [audit]
    attribute of every model class that has one, and the connected
    receivers. *)
Record Registry := {
  tracked_models : gset string;
  audit : gmap string AuditTrailWatcher;
  receivers : list Receiver
}.

Definition set_model_class (cls : string) (w : AuditTrailWatcher) : AuditTrailWatcher :=
  {| model_class := Some cls;
     fields := fields w;
     notify_related := notify_related w;
     track_related := track_related w;
     track_only_with_related := track_only_with_related w;
     excluded_fields := excluded_fields w |}.

Definition set_notify_related (l : list string) (w : AuditTrailWatcher) : AuditTrailWatcher :=
  {| model_class := model_class w;
     fields := fields w;
     notify_related := Some l;
     track_related := track_related w;
     track_only_with_related := track_only_with_related w;
     excluded_fields := excluded_fields w |}.

(** [contribute_to_class]: the returned pair is the boolean result and
    [self] after the call. *)
Definition contribute_to_class (self : AuditTrailWatcher) (cls : string)
    : Py Registry (bool * AuditTrailWatcher) :=
  r ← get_state;
  if bool_decide (cls ∈ tracked_models r) then mret (false, self)
  else
    let self := set_model_class cls self in
    modify_state (λ r,
      {| tracked_models := {[cls]} ∪ tracked_models r;
         audit := <[cls := self]> (audit r);
         receivers := receivers r |}) ;;
    mret (true, self).

(** [signal.connect(handler, sender=sender, weak=False)]: a receiver that is
    already connected for that sender is not connected again. *)
Definition connect (sig : Signal) (h : Handler) (sender : option string)
    : Py Registry unit :=
  modify_state (λ r,
    let rcv := {| signal := sig; handler := h; sender := sender |} in
    {| tracked_models := tracked_models r;
       audit := audit r;
       receivers := if bool_decide (rcv ∈ receivers r) then receivers r
                    else receivers r ++ [rcv] |}).

(** The five [connect] calls of [init_signals]. *)
Definition connect_signals (self : AuditTrailWatcher) : Py Registry unit :=
  connect post_save h_on_post_save_create (model_class self) ;;
  connect post_init h_on_post_init (model_class self) ;;
  connect post_save h_on_post_save_update (model_class self) ;;
  connect pre_delete h_on_pre_delete (model_class self) ;;
  connect post_delete h_on_post_delete (model_class self).

Section registration.
Variable H : Host.

(** [hasattr(model, attr_name)] for a model class *)
Definition class_hasattr (r : Registry) (model attr_name : string) : bool :=
  bool_decide (is_Some (class_attr H model attr_name))
  || (bool_decide (attr_name = "audit") && bool_decide (is_Some (audit r !! model))).

(** The first half of the loop body of [init_related_signals]: the related
    model and the name of the relation that leads from it back here. *)
Definition related_of (self : AuditTrailWatcher) (attr_name : string)
    : Py Registry (string * string) :=
  attribute ← lift_res (or_raise AttributeError
    (cls ← model_class self; class_attr H cls attr_name));
  match attribute with
  | ReverseDescriptor related_model related_field_name =>
    mret (related_model, related_field_name)
  | ForwardDescriptor related_model related_field_name =>
    r ← get_state;
    if negb (class_hasattr r related_model related_field_name)
    then mret (related_model, related_field_name +:+ "_set")
    else mret (related_model, related_field_name)
  | PlainAttribute => lift_res (Err AttributeError)
  end.

(** The last two statements of the loop body: extend
    [related_model.audit.notify_related]. *)
Definition add_notify_related (related_model related_field_name : string)
    : Py Registry unit :=
  r ← get_state;
  w ← lift_res (or_raise AttributeError (audit r !! related_model));
  let l := if truthy (notify_related w) then default [] (notify_related w) else [] in
  modify_state (λ r,
    {| tracked_models := tracked_models r;
       audit := <[related_model :=
                    set_notify_related (l ++ [related_field_name]) w]> (audit r);
       receivers := receivers r |}).

(** The body of the loop of [init_related_signals] for one relation name.
    [init_signals] is the method as it is called on the watcher made for
    the related model. *)
Definition init_related_signals_for
    (init_signals : AuditTrailWatcher → Py Registry unit)
    (self : AuditTrailWatcher) (attr_name : string) : Py Registry unit :=
  '(related_model, related_field_name) ← related_of self attr_name;
  r ← get_state;
  (if negb (bool_decide (is_Some (audit r !! related_model))) then
     '(_, related_watcher) ←
       contribute_to_class (__init__ None None None true None) related_model;
     init_signals related_watcher
   else mret tt) ;;
  add_notify_related related_model related_field_name.

(** [init_related_signals].  [depth] bounds the nesting of [init_signals]
    calls; a watcher without [track_related] returns before it is
    consulted. *)
Fixpoint init_related_signals (depth : nat) (self : AuditTrailWatcher)
    : Py Registry unit :=
  if negb (truthy (track_related self)) then mret tt
  else
    match depth with
    | O => lift_res (Err RecursionError)
    | S depth =>
      let init_signals (w : AuditTrailWatcher) : Py Registry unit :=
        connect_signals w ;; init_related_signals depth w in
      for_each (default [] (track_related self))
        (init_related_signals_for init_signals self)
    end.

Definition init_signals (depth : nat) (self : AuditTrailWatcher)
    : Py Registry unit :=
  connect_signals self ;; init_related_signals depth self.

(** [init_audit_instances], the receiver of [audit_trail_app_ready].
    [order] is the order in which the copy of [tracked_models] is
    iterated. *)
Definition init_audit_instances (depth : nat) (order : list string)
    : Py Registry unit :=
  for_each order (λ model_class,
    r ← get_state;
    watcher ← lift_res (or_raise AttributeError (audit r !! model_class));
    init_signals depth watcher).

End registration.

(** ** Notions the properties are stated with *)

Section notions.
Variable H : Host.

(** The rendered value of one field of a snapshot, as the differ computes
    it: the reference rule for a foreign key, then the label rule for a
    field with choices. *)
Definition render (self : AuditTrailWatcher) (cls field_name : string)
    (value : pyval) : Res pyval :=
  field ← or_raise FieldDoesNotExist (meta_get_field H cls field_name);
  value ← (if is_ForeignKey field then get_fk_value H self field_name value
           else Ok value);
  if choices field then get_choice_value H self field_name value else Ok value.

(** [snapshot.get(field_name, None)] *)
Definition value_in (snapshot : option (gmap string pyval)) (field_name : string)
    : pyval :=
  default VNone (default ∅ snapshot !! field_name).

(** Both snapshots render [field_name] without error and to the same
    value. *)
Definition renders_identically (self : AuditTrailWatcher) (cls : string)
    (old_values new_values : option (gmap string pyval)) (field_name : string)
    : Prop :=
  ∃ v, render self cls field_name (value_in old_values field_name) = Ok v
     ∧ render self cls field_name (value_in new_values field_name) = Ok v.

(** Every field of the snapshot that the differ iterates renders without
    error. *)
Definition renders (self : AuditTrailWatcher) (cls : string)
    (values : option (gmap string pyval)) : Prop :=
  ∀ field_name, field_name ∈ diff_fields H self cls →
    ∃ v, render self cls field_name (value_in values field_name) = Ok v.

End notions.

(** "A parent exists": some configured notify-relation resolves to a non-null
    single entity, or to a non-empty related collection, or has a non-empty
    severed-ids capture. *)
Definition parent_exists (self : AuditTrailWatcher) (instance : Instance) : Prop :=
  ∃ field_name, field_name ∈ default [] (notify_related self) ∧
    ((∃ o, attrs instance field_name = AttrObject o)
     ∨ (∃ m live stored,
          attrs instance field_name = AttrManager m live stored ∧ live ≠ [])
     ∨ (∃ captured ids,
          _audit_ids_to_notify_related_deletion instance = Some captured
          ∧ captured !! field_name = Some ids ∧ ids ≠ [])).

(** Every capture in the severed-ids dict of the instance is a non-empty
    list, as [on_pre_delete], its only writer, leaves it. *)
Definition captures_nonempty (instance : Instance) : Prop :=
  ∀ captured field_name ids,
    _audit_ids_to_notify_related_deletion instance = Some captured →
    captured !! field_name = Some ids → ids ≠ [].

(** The stored before-snapshot, when there is one, has no key that the
    watcher excludes, as [serialize_object], its only source, leaves it. *)
Definition snapshot_omits_excluded (self : AuditTrailWatcher) (instance : Instance)
    : Prop :=
  ∀ data field_name,
    _original_values instance = Some data →
    field_name ∈ excluded_fields self → data !! field_name = None.

(** The disable switch and the parent gate both let the event through. *)
Definition passes_gates (self : AuditTrailWatcher) (s : World) : Prop :=
  DISABLE_AUDIT_TRAIL s = false ∧ no_parent self (instance s) = Ok false.

(** The trails that a handler run from [s] to [s'] persisted. *)
Definition persisted (s s' : World) : list AuditTrail :=
  drop (length (trails s)) (trails s').

(** The related-change trail for [o] pointing at trail number [n]. *)
Definition related_change (n : nat) (o : Entity) : AuditTrail :=
  with_related_trail n (generate_trail RelatedChange o).

(** The model classes with an [audit] attribute are the tracked ones, as
    [contribute_to_class], the only writer of both, leaves them. *)
Definition registry_consistent (r : Registry) : Prop :=
  ∀ cls, cls ∈ tracked_models r ↔ is_Some (audit r !! cls).

(** The value of [notify_related] after [related_field_name] is added to
    [old]. *)
Definition extended (old : option (list string)) (related_field_name : string)
    : list string :=
  match old with
  | Some l => l ++ [related_field_name]
  | None => [related_field_name]
  end.

(** The receivers [init_signals] connects for a watcher, [sender] being its
    model class. *)
Definition receivers_of (sender : option string) : list Receiver :=
  [ {| signal := post_save; handler := h_on_post_save_create; sender := sender |};
    {| signal := post_init; handler := h_on_post_init; sender := sender |};
    {| signal := post_save; handler := h_on_post_save_update; sender := sender |};
    {| signal := pre_delete; handler := h_on_pre_delete; sender := sender |};
    {| signal := post_delete; handler := h_on_post_delete; sender := sender |} ].

(** The receiver list after [rcvs] are connected one by one. *)
Definition connected (rcvs l : list Receiver) : list Receiver :=
  foldl (λ l rcv, if bool_decide (rcv ∈ l) then l else l ++ [rcv]) l rcvs.

(** The watcher that [init_related_signals] attaches to a related model
    without one, once [related_field_name] is noted in it. *)
Definition shadow (related_model related_field_name : string) : AuditTrailWatcher :=
  {| model_class := Some related_model;
     fields := None;
     notify_related := Some [related_field_name];
     track_related := None;
     track_only_with_related := true;
     excluded_fields := ["id"] |}.

(** [s] with the trails [l] persisted after its own. *)
Definition add_trails (l : list AuditTrail) (s : World) : World :=
  {| DISABLE_AUDIT_TRAIL := DISABLE_AUDIT_TRAIL s;
     instance := instance s;
     trails := trails s ++ l |}.

(** [s] with [i] for its instance. *)
Definition with_instance (i : Instance) (s : World) : World :=
  {| DISABLE_AUDIT_TRAIL := DISABLE_AUDIT_TRAIL s;
     instance := i;
     trails := trails s |}.

(** From [s] to [s'] nothing changed but the table of trails, which grew by
    trails that satisfy [P]. *)
Definition grows_by (P : AuditTrail → Prop) (s s' : World) : Prop :=
  ∃ rest, s' = add_trails rest s ∧ Forall P rest.

(** A related-change trail pointing at trail number [n]. *)
Definition is_related_change (n : nat) (t : AuditTrail) : Prop :=
  ∃ o, t = related_change n o.

(** The state in which the cascade of a creation or an update starts: the
    trail [t] is persisted and the before-snapshot refreshed. *)
Definition after_save (H : Host) (self : AuditTrailWatcher) (t : AuditTrail)
    (s : World) : World :=
  with_instance
    (set_original_values (serialize_object H self (instance s)) (instance s))
    (add_trails [t] s).

(** The dict that the loop of [on_pre_delete] builds. *)
Definition capture (instance : Instance) (field_names : list string)
    : gmap string (list Z) :=
  foldl (on_pre_delete_field instance) ∅ field_names.

(** The ids captured for a relation before the delete; none when there is no
    capture. *)
Definition captured_ids (instance : Instance) (field_name : string) : list Z :=
  default []
    (_audit_ids_to_notify_related_deletion instance ≫= λ captured,
     captured !! field_name).

(** The entities that a deletion notifies through one notify-relation: the
    related object of a single-valued relation; for a collection, the rows
    still stored whose id was captured before the delete. *)
Definition notified_on_delete (instance : Instance) (field_name : string)
    : list Entity :=
  match attrs instance field_name with
  | AttrObject o => [o]
  | AttrManager m _ stored =>
    (λ i, {| entity_model := m; entity_id := i |}) <$>
      filter (λ i, i ∈ captured_ids instance field_name) stored
  | _ => []
  end.

(** A change read backwards. *)
Definition swap_change (c : Change) : Change :=
  {| old_value := new_value c; new_value := old_value c |}.

(** The character that closes the key in a rendered reference. *)
Definition closing_bracket : Stdlib.Strings.Ascii.ascii :=
  match "]" with
  | String a _ => a
  | EmptyString => Stdlib.Strings.Ascii.zero
  end.

(** No character of the string is the closing bracket. *)
Fixpoint bracket_free (s : string) : Prop :=
  match s with
  | EmptyString => True
  | String a s => a ≠ closing_bracket ∧ bracket_free s
  end.

(** From [s] to [s'] no persisted trail was changed or removed, the switch
    kept its value, and the instance kept its class, id, field values and
    relations. *)
Definition only_appends (s s' : World) : Prop :=
  DISABLE_AUDIT_TRAIL s' = DISABLE_AUDIT_TRAIL s
  ∧ (∃ rest, trails s' = trails s ++ rest)
  ∧ inst_model (instance s') = inst_model (instance s)
  ∧ inst_id (instance s') = inst_id (instance s)
  ∧ field_values (instance s') = field_values (instance s)
  ∧ attrs (instance s') = attrs (instance s).

(** The entities that a creation or an update notifies through one
    notify-relation: the related object, or the current members of the
    collection. *)
Definition notified_on_save (instance : Instance) (field_name : string)
    : list Entity :=
  match attrs instance field_name with
  | AttrObject o => [o]
  | AttrManager m live _ => (λ i, {| entity_model := m; entity_id := i |}) <$> live
  | _ => []
  end.

(** The name is a relation of the model class that [init_related_signals]
    can resolve: a reverse descriptor or a forward foreign key. *)
Definition resolves (H : Host) (cls attr_name : string) : Prop :=
  ∃ related_model related_name,
    class_attr H cls attr_name = Some (ReverseDescriptor related_model related_name)
    ∨ class_attr H cls attr_name = Some (ForwardDescriptor related_model related_name).

(** [w'] is [w] but for notify-relations added at the end. *)
Definition only_notified (w w' : AuditTrailWatcher) : Prop :=
  model_class w' = model_class w
  ∧ fields w' = fields w
  ∧ track_related w' = track_related w
  ∧ track_only_with_related w' = track_only_with_related w
  ∧ excluded_fields w' = excluded_fields w
  ∧ default [] (notify_related w) `prefix_of` default [] (notify_related w').

(** From [r] to [r'] no class stopped being tracked, no receiver was
    disconnected, and every attached watcher is still attached, changed at
    most by added notify-relations. *)
Definition extends_registry (r r' : Registry) : Prop :=
  tracked_models r ⊆ tracked_models r'
  ∧ (∀ rcv, rcv ∈ receivers r → rcv ∈ receivers r')
  ∧ ∀ cls w, audit r !! cls = Some w →
      ∃ w', audit r' !! cls = Some w' ∧ only_notified w w'.

(** Every attached watcher knows the class it is attached to and tracks only
    relations of that class that can be resolved. *)
Definition activable (H : Host) (r : Registry) : Prop :=
  ∀ cls w, audit r !! cls = Some w →
    model_class w = Some cls
    ∧ ∀ attr_name, attr_name ∈ default [] (track_related w) → resolves H cls attr_name.

(** Two raw values of a foreign-key field stand for the same key: both are
    [None], or [int()] converts them to the same integer. *)
Definition same_key (H : Host) (v1 v2 : pyval) : Prop :=
  (v1 = VNone ∧ v2 = VNone) ∨ ∃ n, py_int H v1 = Ok n ∧ py_int H v2 = Ok n.

(** ** A small blog, for concrete runs *)

Module Blog.

(** [int(text)] for the texts the blog meets: optional blanks, an optional
    sign and decimal digits. *)
Fixpoint digits (s : string) (acc : Z) : option Z :=
  match s with
  | EmptyString => Some acc
  | String a s =>
    d ← Ascii.is_nat a;
    digits s (10 * acc + Z.of_nat d)%Z
  end.

Fixpoint lstrip (s : string) : string :=
  match s with
  | String a s' => if Ascii.is_space a then lstrip s' else s
  | EmptyString => EmptyString
  end.

Definition strip (s : string) : string :=
  String.rev (lstrip (String.rev (lstrip s))).

Definition starts_with (c s : string) : bool :=
  match c, s with
  | String a _, String b _ => bool_decide (a = b)
  | _, _ => false
  end.

Definition parse_int (s : string) : option Z :=
  match strip s with
  | EmptyString => None
  | String a EmptyString => digits (String a EmptyString) 0
  | String a rest =>
    if starts_with "-" (String a rest) then Z.opp <$> digits rest 0
    else if starts_with "+" (String a rest) then digits rest 0
    else digits (String a rest) 0
  end.

Definition f_id : Field := {| name := "id"; is_ForeignKey := false; choices := false |}.
Definition f_title : Field := {| name := "title"; is_ForeignKey := false; choices := false |}.
Definition f_status : Field := {| name := "status"; is_ForeignKey := false; choices := true |}.
Definition f_post : Field := {| name := "post"; is_ForeignKey := true; choices := false |}.
Definition f_text : Field := {| name := "text"; is_ForeignKey := false; choices := false |}.

Definition fields_of (cls : string) : list Field :=
  if bool_decide (cls = "Post") then [f_id; f_title; f_status]
  else if bool_decide (cls = "Comment") then [f_id; f_post; f_text]
  else [].

Definition field_of (cls field_name : string) : option Field :=
  snd <$> list_find (λ f, name f = field_name) (fields_of cls).

(** Post 1, titled "Hi", is the only post in the database. *)
Definition unicode_of (cls field_name : string) (value : Z) : option string :=
  if bool_decide (cls = "Comment") && bool_decide (field_name = "post")
     && bool_decide (value = 1%Z)
  then Some "Hi" else None.

(** [status] has the choices 1: draft and 2: published; any other value
    displays as itself. *)
Definition display_of (cls field_name : string) (value : pyval) : Res string :=
  if bool_decide (cls = "Post") && bool_decide (field_name = "status") then
    match value with
    | VInt 1 => Ok "draft"
    | VInt 2 => Ok "published"
    | _ => Ok (py_unicode value)
    end
  else Err AttributeError.

(** [Comment.post] is a foreign key to [Post] without a related name: its
    query name is [comment], the accessor on [Post] is [comment_set]. *)
Definition attr_of (cls attr_name : string) : option Descriptor :=
  if bool_decide (cls = "Comment") && bool_decide (attr_name = "post")
  then Some (ForwardDescriptor "Post" "comment")
  else if bool_decide (cls = "Post") && bool_decide (attr_name = "comment_set")
  then Some (ReverseDescriptor "Comment" "post")
  else None.

Definition host : Host :=
  {| meta_fields := fields_of;
     meta_get_field := field_of;
     related_unicode := unicode_of;
     get_display := display_of;
     int_of_text := parse_int;
     class_attr := attr_of |}.

(** [audit = AuditTrailWatcher()] on [Post] and on [Comment] *)
Definition post_audit : AuditTrailWatcher :=
  set_model_class "Post" (__init__ None None None false None).
Definition comment_audit : AuditTrailWatcher :=
  set_model_class "Comment" (__init__ None None None false None).

Definition no_attrs : string → Attr := λ _, AttrMissing.

(** A post titled "Hi" in state draft. *)
Definition a_post : Instance :=
  {| inst_model := "Post"; inst_id := 1;
     field_values := λ f,
       if bool_decide (f = "id") then VInt 1
       else if bool_decide (f = "title") then VStr "Hi"
       else if bool_decide (f = "status") then VInt 1
       else VNone;
     attrs := no_attrs;
     _original_values := None;
     _audit_ids_to_notify_related_deletion := None |}.

(** The relations of a post whose [comment_set] evaluates to [comments]. *)
Definition with_comments (comments : Attr) : string → Attr :=
  λ a, if bool_decide (a = "comment_set") then comments else AttrMissing.

(** A watcher on [Post] that notifies through [comment_set]. *)
Definition post_notifying : AuditTrailWatcher :=
  set_notify_related ["comment_set"] post_audit.

(** A comment on post number [post_id]. *)
Definition a_comment (post_id : Z) (post : Attr) : Instance :=
  {| inst_model := "Comment"; inst_id := 5;
     field_values := λ f,
       if bool_decide (f = "id") then VInt 5
       else if bool_decide (f = "post") then VInt post_id
       else if bool_decide (f = "text") then VStr "first"
       else VNone;
     attrs := λ a, if bool_decide (a = "post") then post else AttrMissing;
     _original_values := None;
     _audit_ids_to_notify_related_deletion := None |}.

Definition world (disabled : bool) (i : Instance) : World :=
  {| DISABLE_AUDIT_TRAIL := disabled; instance := i; trails := [] |}.

(** [audit = AuditTrailWatcher(track_only_with_related=True)] on [Comment],
    with no model tracking comments: [notify_related] stays [None]. *)
Definition requiring_parent : AuditTrailWatcher :=
  set_model_class "Comment" (__init__ None None None true None).

(** [audit = AuditTrailWatcher(fields=[])] on [Post] *)
Definition post_no_fields : AuditTrailWatcher :=
  set_model_class "Post" (__init__ (Some []) None None false None).

(** [audit = AuditTrailWatcher(fields=['id', 'title'])] on [Post] *)
Definition post_tracking_id : AuditTrailWatcher :=
  set_model_class "Post" (__init__ (Some ["id"; "title"]) None None false None).

(** The post as loaded: [on_post_init] has stored its before-snapshot. *)
Definition a_post_loaded : Instance :=
  set_original_values (serialize_object host post_audit a_post) a_post.

(** The post with comments 1, 2 and 3, before its deletion. *)
Definition post_before_delete : Instance :=
  set_attrs (with_comments (AttrManager "Comment" [1; 2; 3] [1; 2; 3])%Z) a_post.

(** The same post after the delete went through, with the capture that
    [on_pre_delete] made: the live relation is empty and [stored] are the
    comments the database still has. *)
Definition post_after_delete (stored : list Z) : Instance :=
  set_attrs (with_comments (AttrManager "Comment" [] stored))
    (set_audit_ids {[ "comment_set" := [1; 2; 3]%Z ]} post_before_delete).

(** [audit = AuditTrailWatcher(track_related=['post'])] on [Comment], and
    the registry once that class is declared. *)
Definition comment_tracking : AuditTrailWatcher :=
  set_model_class "Comment" (__init__ None (Some ["post"]) None false None).

Definition comment_declared : Registry :=
  {| tracked_models := {[ "Comment" ]};
     audit := {[ "Comment" := comment_tracking ]};
     receivers := [] |}.

Definition nothing_declared : Registry :=
  {| tracked_models := ∅; audit := ∅; receivers := [] |}.

(** The loaded post after its title was edited in memory. *)
Definition a_post_edited : Instance :=
  {| inst_model := "Post"; inst_id := 1;
     field_values := λ f,
       if bool_decide (f = "id") then VInt 1
       else if bool_decide (f = "title") then VStr "Hello"
       else if bool_decide (f = "status") then VInt 1
       else VNone;
     attrs := no_attrs;
     _original_values := _original_values a_post_loaded;
     _audit_ids_to_notify_related_deletion := None |}.

Definition post_1 : Entity := {| entity_model := "Post"; entity_id := 1 |}.

(** A watcher on [Comment] given a notify-relation that comments do not
    have. *)
Definition comment_misnotifying : AuditTrailWatcher :=
  set_notify_related ["posts"] comment_audit.

(** [audit = AuditTrailWatcher(track_related=['comment_set'])] on [Post], and
    the registry once that class is declared. *)
Definition post_tracking : AuditTrailWatcher :=
  set_model_class "Post" (__init__ None (Some ["comment_set"]) None false None).

Definition post_declared : Registry :=
  {| tracked_models := {[ "Post" ]};
     audit := {[ "Post" := post_tracking ]};
     receivers := [] |}.

(** [audit = AuditTrailWatcher(track_related=['nope'])] on [Post] *)
Definition post_mistracking : AuditTrailWatcher :=
  set_model_class "Post" (__init__ None (Some ["nope"]) None false None).

End Blog.

(** * Properties *)

(** ** The differ *)

Section differ.
Variable H : Host.
Implicit Types (self : AuditTrailWatcher) (cls field_name : string).
Implicit Types (old_values new_values : gmap string pyval).
Implicit Types (diff : gmap string Change).

Lemma get_fk_value_None self field_name :
  get_fk_value H self field_name VNone = Ok VNone.
Proof. done. Qed.

Lemma get_choice_value_None self field_name :
  get_choice_value H self field_name VNone = Ok VNone.
Proof. done. Qed.

(** A missing value stays missing under rendering. *)
Lemma render_None self cls field_name v :
  render H self cls field_name VNone = Ok v → v = VNone.
Proof.
  unfold render. destruct (meta_get_field H cls field_name) as [field|]; [|done].
  simpl. destruct (is_ForeignKey field), (choices field); simpl; congruence.
Qed.

(** One turn of the loop returns exactly when both values render, and then
    records the field when the rendered values differ. *)
Lemma get_changes_field_Ok self cls old_values new_values diff field_name diff' :
  get_changes_field H self cls old_values new_values diff field_name = Ok diff' ↔
  ∃ vo vn,
    render H self cls field_name (value_in (Some old_values) field_name) = Ok vo
    ∧ render H self cls field_name (value_in (Some new_values) field_name) = Ok vn
    ∧ diff' = if bool_decide (vo ≠ vn)
              then <[field_name := {| old_value := vo; new_value := vn |}]> diff
              else diff.
Proof.
  unfold get_changes_field, render, value_in. simpl.
  destruct (meta_get_field H cls field_name) as [field|]; simpl;
    [|split; [done|by intros (?&?&?&?)]].
  destruct (is_ForeignKey field), (choices field); simpl;
    repeat (match goal with
            | |- context [get_fk_value H self field_name ?v] =>
                destruct (get_fk_value H self field_name v); simpl
            | |- context [get_choice_value H self field_name ?v] =>
                destruct (get_choice_value H self field_name v); simpl
            end);
    (split;
     [ intros Hd;
       first [ done
             | eexists _, _; split; [done|split; [done|]];
               by case_bool_decide; simplify_eq ]
     | intros (vo & vn & Ho & Hn & ->); simplify_eq; by case_bool_decide ]).
Qed.

Lemma get_changes_loop_Ok self cls old_values new_values field_names :
  ∀ diff diff',
  get_changes_loop H self cls old_values new_values field_names diff = Ok diff' →
  ∀ field_name, field_name ∈ field_names →
    ∃ vo vn,
      render H self cls field_name (value_in (Some old_values) field_name) = Ok vo
      ∧ render H self cls field_name (value_in (Some new_values) field_name) = Ok vn.
Proof.
  induction field_names as [|f rest IH]; intros diff diff' Hloop g Hg.
  - by apply elem_of_nil in Hg.
  - simpl in Hloop.
    destruct (get_changes_field H self cls old_values new_values diff f)
      as [diff1|] eqn:Hstep; [|done].
    simpl in Hloop. apply elem_of_cons in Hg as [->|Hg].
    + apply get_changes_field_Ok in Hstep as (vo & vn & ? & ? & _). eauto.
    + eauto.
Qed.

(** The loop never forgets a recorded field. *)
Lemma get_changes_loop_keeps self cls old_values new_values field_names :
  ∀ diff diff' field_name,
  get_changes_loop H self cls old_values new_values field_names diff = Ok diff' →
  is_Some (diff !! field_name) → is_Some (diff' !! field_name).
Proof.
  induction field_names as [|f rest IH]; intros diff diff' g Hloop Hsome.
  - by injection Hloop as <-.
  - simpl in Hloop.
    destruct (get_changes_field H self cls old_values new_values diff f)
      as [diff1|] eqn:Hstep; [|done].
    simpl in Hloop. eapply IH; [done|].
    apply get_changes_field_Ok in Hstep as (vo & vn & _ & _ & ->).
    case_bool_decide; [|done].
    destruct (decide (f = g)) as [->|]; [rewrite lookup_insert_eq|rewrite lookup_insert_ne]; eauto.
Qed.

Lemma get_changes_loop_same self cls old_values new_values field_names diff :
  Forall (renders_identically H self cls (Some old_values) (Some new_values))
    field_names →
  get_changes_loop H self cls old_values new_values field_names diff = Ok diff.
Proof.
  induction 1 as [|f rest (v & Ho & Hn) _ IH]; [done|].
  simpl.
  assert (get_changes_field H self cls old_values new_values diff f = Ok diff)
    as ->; [|done].
  apply get_changes_field_Ok. exists v, v. by rewrite bool_decide_eq_false_2; auto.
Qed.

Lemma get_changes_loop_empty self cls old_values new_values field_names :
  ∀ diff,
  get_changes_loop H self cls old_values new_values field_names diff = Ok ∅ →
  Forall (renders_identically H self cls (Some old_values) (Some new_values))
    field_names.
Proof.
  induction field_names as [|f rest IH]; intros diff Hloop; [done|].
  simpl in Hloop.
  destruct (get_changes_field H self cls old_values new_values diff f)
    as [diff1|] eqn:Hstep; [|done].
  simpl in Hloop. constructor; [|by eapply IH].
  apply get_changes_field_Ok in Hstep as (vo & vn & Ho & Hn & ->).
  case_bool_decide as Hne.
  - pose proof (get_changes_loop_keeps _ _ _ _ _ _ _ f Hloop) as Hk.
    rewrite lookup_insert_eq, lookup_empty in Hk.
    destruct Hk as [? [=]]; eauto.
  - exists vo. split; [done|]. destruct (decide (vo = vn)); by simplify_eq.
Qed.

(** A field absent from both snapshots is never recorded. *)
Lemma get_changes_loop_absent self cls old_values new_values field_names g :
  old_values !! g = None → new_values !! g = None →
  ∀ diff diff',
  get_changes_loop H self cls old_values new_values field_names diff = Ok diff' →
  diff !! g = None → diff' !! g = None.
Proof.
  intros Ho Hn.
  induction field_names as [|f rest IH]; intros diff diff' Hloop Hd.
  - by injection Hloop as <-.
  - simpl in Hloop.
    destruct (get_changes_field H self cls old_values new_values diff f)
      as [diff1|] eqn:Hstep; [|done].
    simpl in Hloop. eapply IH; [done|].
    apply get_changes_field_Ok in Hstep as (vo & vn & Hvo & Hvn & ->).
    case_bool_decide as Hne; [|done].
    destruct (decide (f = g)) as [->|]; [|by rewrite lookup_insert_ne].
    unfold value_in in Hvo, Hvn. simpl in Hvo, Hvn. rewrite Ho in Hvo. rewrite Hn in Hvn.
    apply render_None in Hvo, Hvn. congruence.
Qed.

Lemma get_changes_absent self (old new : option (gmap string pyval)) diff g :
  get_changes H self old new = Ok diff →
  default ∅ old !! g = None → default ∅ new !! g = None →
  diff !! g = None.
Proof.
  unfold get_changes. destruct (model_class self) as [cls|]; [|done]. simpl.
  intros Hloop Ho Hn.
  eapply get_changes_loop_absent; [exact Ho|exact Hn|exact Hloop|done].
Qed.

(** [serialize_object] leaves out the excluded fields. *)
Lemma serialize_object_excluded self instance field_name :
  field_name ∈ excluded_fields self →
  serialize_object H self instance !! field_name = None.
Proof.
  intros Hex. unfold serialize_object.
  generalize (meta_fields H (inst_model instance)).
  intros l. induction l as [|f l IH] using rev_ind; [done|].
  rewrite foldl_app. simpl.
  destruct (_ || bool_decide (name f ∈ excluded_fields self)) eqn:Hskip; [done|].
  apply orb_false_iff in Hskip as [_ Hnot%bool_decide_eq_false].
  rewrite lookup_insert_ne; [done|congruence].
Qed.

End differ.

(** ** Runs of the handlers *)

Lemma add_trails_nil s : add_trails [] s = s.
Proof. destruct s. unfold add_trails. simpl. by rewrite app_nil_r. Qed.

Lemma add_trails_app l1 l2 s :
  add_trails l2 (add_trails l1 s) = add_trails (l1 ++ l2) s.
Proof. unfold add_trails. simpl. by rewrite app_assoc. Qed.

Lemma persisted_add_trails l s : persisted s (add_trails l s) = l.
Proof. unfold persisted. simpl. by rewrite drop_app_length. Qed.

Lemma grows_by_refl P s : grows_by P s s.
Proof. exists []. by rewrite add_trails_nil. Qed.

Lemma grows_by_trans P s1 s2 s3 :
  grows_by P s1 s2 → grows_by P s2 s3 → grows_by P s1 s3.
Proof.
  intros (l1 & -> & H1) (l2 & -> & H2). exists (l1 ++ l2).
  split; [apply add_trails_app|by apply Forall_app].
Qed.

(** A loop whose body only adds trails only adds trails. *)
Lemma for_each_grows_by {A} P (l : list A) (body : A → Py World unit) :
  (∀ x s, x ∈ l → grows_by P s (body x s).2) →
  ∀ s, grows_by P s (for_each l body s).2.
Proof.
  induction l as [|x l IH]; intros Hbody s; [apply grows_by_refl|].
  simpl. unfold mbind, Py_bind.
  pose proof (Hbody x s (list_elem_of_here _ _)) as Hx.
  destruct (body x s) as [[[]|e] s1]; simpl in *; [|done].
  eapply grows_by_trans; [done|]. apply IH. intros. apply Hbody. by constructor.
Qed.

Lemma notify_run n (notified_objects : list Entity) s :
  notify n notified_objects s
  = (Ok tt, add_trails (related_change n <$> notified_objects) s).
Proof.
  revert s. induction notified_objects as [|o l IH]; intros s.
  - by rewrite add_trails_nil.
  - unfold notify in *. simpl. unfold mbind, Py_bind at 1. simpl.
    rewrite IH. f_equal.
    change (add_trails (related_change n <$> l) (add_trails [related_change n o] s)
            = add_trails ([related_change n o] ++ (related_change n <$> l)) s).
    apply add_trails_app.
Qed.

#[global] Arguments notify : simpl never.
#[global] Arguments create_related_audit_trail : simpl never.
#[global] Arguments create_deleted_related_audit_trail : simpl never.
#[global] Arguments get_changes : simpl never.
#[global] Arguments serialize_object : simpl never.
#[global] Arguments no_parent : simpl never.

(** Runs the monadic plumbing of a handler up to its next case split. *)
Ltac py_run :=
  unfold mbind, Py_bind, mret, Py_ret, get_state, lift_res; simpl.

Lemma notify_grows_by n notified_objects s :
  grows_by (is_related_change n) s (notify n notified_objects s).2.
Proof.
  rewrite notify_run. eexists. split; [done|].
  apply Forall_fmap, Forall_forall. intros o _. by exists o.
Qed.

Section handlers.
Variable H : Host.
Implicit Types (self : AuditTrailWatcher) (s : World).

Lemma create_related_audit_trail_grows_by self n s :
  grows_by (is_related_change n) s (create_related_audit_trail self n s).2.
Proof.
  unfold create_related_audit_trail.
  destruct (truthy (notify_related self)); simpl; [|apply grows_by_refl].
  apply for_each_grows_by. intros f s1 _. py_run.
  destruct (attrs (instance s1) f);
    first [apply grows_by_refl | apply notify_grows_by].
Qed.

Lemma create_deleted_related_audit_trail_grows_by self n s :
  grows_by (is_related_change n) s (create_deleted_related_audit_trail self n s).2.
Proof.
  unfold create_deleted_related_audit_trail.
  destruct (truthy (notify_related self)); simpl; [|apply grows_by_refl].
  apply for_each_grows_by. intros f s1 _. py_run.
  destruct (attrs (instance s1) f);
    try first [apply grows_by_refl | apply notify_grows_by].
  destruct (_audit_ids_to_notify_related_deletion (instance s1)) as [captured|];
    simpl; [|apply grows_by_refl].
  destruct (captured !! f) as [[|]|];
    first [apply grows_by_refl | apply notify_grows_by].
Qed.

(** A creation either leaves the world as it is or persists one trail and
    runs the cascade. *)
Lemma on_post_save_create_run self created s :
  (on_post_save_create H self created s).2 = s
  ∨ ∃ diff,
      created = true ∧ passes_gates self s
      ∧ get_changes H self (Some ∅) (Some (serialize_object H self (instance s)))
        = Ok diff
      ∧ on_post_save_create H self created s
        = create_related_audit_trail self (length (trails s))
            (after_save H self
               (with_changes diff (generate_trail Created (entity_of (instance s)))) s).
Proof.
  unfold on_post_save_create, passes_gates. py_run.
  destruct (DISABLE_AUDIT_TRAIL s) eqn:Hd; [by left|].
  destruct created; simpl; [|by left].
  destruct (no_parent self (instance s)) as [[]|]; simpl; [by left| |by left].
  destruct (get_changes _ _ _ _) as [diff|]; simpl; [|by left].
  right. by exists diff.
Qed.

Lemma on_post_save_update_run self created s :
  (on_post_save_update H self created s).2 = s
  ∨ ∃ original diff,
      created = false ∧ passes_gates self s
      ∧ _original_values (instance s) = Some original
      ∧ get_changes H self (Some original)
          (Some (serialize_object H self (instance s))) = Ok diff
      ∧ diff ≠ ∅
      ∧ on_post_save_update H self created s
        = create_related_audit_trail self (length (trails s))
            (after_save H self
               (with_changes diff (generate_trail Updated (entity_of (instance s)))) s).
Proof.
  unfold on_post_save_update, passes_gates. py_run.
  destruct (DISABLE_AUDIT_TRAIL s) eqn:Hd; [by left|].
  destruct created; simpl; [by left|].
  destruct (no_parent self (instance s)) as [[]|]; simpl; [by left| |by left].
  destruct (_original_values (instance s)) as [original|]; simpl; [|by left].
  destruct (get_changes _ _ _ _) as [diff|] eqn:Hdiff; simpl; [|by left].
  case_bool_decide; simpl; [by left|].
  right. by exists original, diff.
Qed.

Lemma on_post_delete_run self s :
  (on_post_delete H self s).2 = s
  ∨ ∃ diff,
      passes_gates self s
      ∧ get_changes H self (Some (serialize_object H self (instance s))) (Some ∅)
        = Ok diff
      ∧ on_post_delete H self s
        = create_deleted_related_audit_trail self (length (trails s))
            (add_trails
               [with_changes diff (generate_trail Deleted (entity_of (instance s)))] s).
Proof.
  unfold on_post_delete, passes_gates. py_run.
  destruct (DISABLE_AUDIT_TRAIL s) eqn:Hd; [by left|].
  destruct (no_parent self (instance s)) as [[]|]; simpl; [by left| |by left].
  destruct (get_changes _ _ _ _) as [diff|]; simpl; [|by left].
  right. by exists diff.
Qed.

End handlers.

(** ** The differ: empty diffs, excluded fields, stale references *)

Section differ_claims.
Variable H : Host.
Implicit Types (self : AuditTrailWatcher) (s : World).

(** C5 (as amended).  For a watcher attached to [cls], the diff of two
    snapshots is the empty dict exactly when every field the differ iterates
    (the tracked list when it is non-empty, all fields of the model
    otherwise) renders without error and to the same value in both, a
    missing key counting as [None]; in particular the diff of a snapshot
    with itself is empty whenever its fields render without error. *)
Theorem get_changes_empty_iff self cls
    (old_values new_values : option (gmap string pyval)) :
  model_class self = Some cls →
  (get_changes H self old_values new_values = Ok ∅
   ↔ Forall (renders_identically H self cls old_values new_values)
       (diff_fields H self cls))
  ∧ (renders H self cls old_values →
     get_changes H self old_values old_values = Ok ∅).
Proof.
  intros Hcls. unfold get_changes. rewrite Hcls. simpl. split; [split|].
  - apply get_changes_loop_empty.
  - apply get_changes_loop_same.
  - intros Hr. apply get_changes_loop_same, Forall_forall. intros f Hf.
    destruct (Hr f Hf) as [v Hv]. by exists v.
Qed.

(** C1 (as amended).  When a foreign-key field that the differ iterates
    holds, in either snapshot, a key whose row the lookup does not find,
    [get_fk_value] raises DoesNotExist for it and [get_changes] raises
    instead of returning a diff. *)
Theorem stale_reference_aborts_diff self cls
    (old_values new_values : option (gmap string pyval))
    field_name field value n :
  model_class self = Some cls →
  field_name ∈ diff_fields H self cls →
  meta_get_field H cls field_name = Some field →
  is_ForeignKey field = true →
  value = value_in old_values field_name
  ∨ value = value_in new_values field_name →
  py_int H value = Ok n →
  related_unicode H cls field_name n = None →
  get_fk_value H self field_name value = Err DoesNotExist
  ∧ is_Err (get_changes H self old_values new_values).
Proof.
  intros Hcls Hin Hfield Hfk Hvalue Hint Hstale.
  assert (get_fk_value H self field_name value = Err DoesNotExist) as Hraise.
  { unfold get_fk_value. destruct value; [done| |];
      rewrite Hint; simpl; rewrite Hcls; simpl; by rewrite Hstale. }
  split; [done|].
  unfold get_changes. rewrite Hcls. simpl.
  destruct (get_changes_loop _ _ _ _ _ _ _) as [diff|] eqn:Hloop; [|done].
  destruct (get_changes_loop_Ok _ _ _ _ _ _ _ _ Hloop field_name Hin)
    as (vo & vn & Ho & Hn).
  assert (render H self cls field_name value = Err DoesNotExist) as Hr.
  { unfold render. rewrite Hfield. simpl. rewrite Hfk, Hraise. done. }
  unfold value_in in *. simpl in Ho, Hn.
  destruct Hvalue as [->| ->]; congruence.
Qed.

(** The before-snapshot that [on_post_init] stores omits the excluded
    fields. *)
Lemma on_post_init_snapshot self s :
  snapshot_omits_excluded self (instance (on_post_init H self s).2).
Proof.
  intros data f [= <-] Hex. by apply serialize_object_excluded.
Qed.

(** C10.  [__init__] always excludes [id]; and no trail that a handler
    persists has an excluded field in its change set, whether or not the
    field is named in the tracked list or among the fields of the model,
    provided the stored before-snapshot is one that [serialize_object]
    made. *)
Theorem changes_omit_excluded_fields self created s :
  (∀ fields track_related notify_related track_only_with_related excluded,
     "id" ∈ excluded_fields
       (__init__ fields track_related notify_related track_only_with_related excluded))
  ∧ (snapshot_omits_excluded self (instance s) →
     ∀ s' t field_name,
       s' = (on_post_save_create H self created s).2
       ∨ s' = (on_post_save_update H self created s).2
       ∨ s' = (on_pre_delete self s).2
       ∨ s' = (on_post_delete H self s).2 →
       t ∈ persisted s s' →
       field_name ∈ excluded_fields self →
       changes t !! field_name = None).
Proof.
  split.
  { intros ? ? ? ? excluded. unfold __init__. simpl.
    destruct (truthy excluded); apply list_elem_of_here. }
  intros Hsnap s' t f Hs' Ht Hex.
  assert (∀ l0 s0 n, trails s0 = trails s ++ l0 →
            (∀ t0, t0 ∈ l0 → changes t0 !! f = None) →
            ∀ s1, grows_by (is_related_change n) s0 s1 →
            t ∈ persisted s s1 → changes t !! f = None) as Hcascade.
  { intros l0 s0 n Htr Hl0 s1 (rest & -> & Hrest). unfold persisted. simpl.
    rewrite Htr, <-app_assoc, drop_app_length.
    intros [?|Hin]%elem_of_app; [by apply Hl0|].
    eapply Forall_forall in Hrest as [o ->]; [|done]. done. }
  assert (persisted s s = []) as Hnil.
  { unfold persisted. by rewrite drop_all. }
  destruct Hs' as [->|[->|[->| ->]]].
  - destruct (on_post_save_create_run H self created s)
      as [Hsame|(diff & _ & _ & Hdiff & Hrun)].
    { rewrite Hsame, Hnil in Ht. by apply elem_of_nil in Ht. }
    rewrite Hrun in Ht.
    eapply Hcascade; [| |apply create_related_audit_trail_grows_by|done];
      [done|].
    intros t0 ->%list_elem_of_singleton. simpl.
    eapply get_changes_absent; [done|done|]. simpl.
    by apply serialize_object_excluded.
  - destruct (on_post_save_update_run H self created s)
      as [Hsame|(original & diff & _ & _ & Horig & Hdiff & _ & Hrun)].
    { rewrite Hsame, Hnil in Ht. by apply elem_of_nil in Ht. }
    rewrite Hrun in Ht.
    eapply Hcascade; [| |apply create_related_audit_trail_grows_by|done];
      [done|].
    intros t0 ->%list_elem_of_singleton. simpl.
    eapply get_changes_absent; [done| |]; simpl.
    + by eapply Hsnap.
    + by apply serialize_object_excluded.
  - assert (trails (on_pre_delete self s).2 = trails s) as Htr.
    { unfold on_pre_delete. py_run.
      destruct (DISABLE_AUDIT_TRAIL s); [done|].
      by destruct (truthy (notify_related self)). }
    unfold persisted in Ht. rewrite Htr, drop_all in Ht.
    by apply elem_of_nil in Ht.
  - destruct (on_post_delete_run H self s) as [Hsame|(diff & _ & Hdiff & Hrun)].
    { rewrite Hsame, Hnil in Ht. by apply elem_of_nil in Ht. }
    rewrite Hrun in Ht.
    eapply Hcascade; [| |apply create_deleted_related_audit_trail_grows_by|done];
      [done|].
    intros t0 ->%list_elem_of_singleton. simpl.
    eapply get_changes_absent; [done| |done]. simpl.
    by apply serialize_object_excluded.
Qed.

End differ_claims.

(** ** The gates *)

Section gates.
Variable H : Host.
Implicit Types (self : AuditTrailWatcher) (s : World).

(** The capture that [on_pre_delete] leaves has only non-empty lists. *)
Lemma on_pre_delete_captures_nonempty self s :
  captures_nonempty (instance s) →
  captures_nonempty (instance (on_pre_delete self s).2).
Proof.
  intros Hs. unfold on_pre_delete. py_run.
  destruct (DISABLE_AUDIT_TRAIL s); [done|].
  destruct (truthy (notify_related self)); [|done]. simpl.
  intros captured f ids [= <-].
  generalize (default [] (notify_related self)). intros l. revert f ids.
  induction l as [|g l IH] using rev_ind; intros f ids; [done|].
  rewrite foldl_app. simpl. unfold on_pre_delete_field at 1.
  destruct (attrs (instance s) g) as [| | |m live stored]; try apply IH.
  case_bool_decide as Hlive; simpl; [apply IH|].
  destruct (decide (g = f)) as [->|].
  - rewrite lookup_insert_eq. by intros [= <-].
  - rewrite lookup_insert_ne by done. apply IH.
Qed.

(** When the loop of [is_parent_object_exists] answers True, a parent
    exists in the sense of [parent_exists]. *)
Lemma is_parent_object_exists_loop_true instance field_names :
  captures_nonempty instance →
  is_parent_object_exists_loop instance field_names = true →
  ∃ field_name, field_name ∈ field_names ∧
    ((∃ o, attrs instance field_name = AttrObject o)
     ∨ (∃ m live stored,
          attrs instance field_name = AttrManager m live stored ∧ live ≠ [])
     ∨ (∃ captured ids,
          _audit_ids_to_notify_related_deletion instance = Some captured
          ∧ captured !! field_name = Some ids ∧ ids ≠ [])).
Proof.
  intros Hcap. induction field_names as [|f l IH]; [done|]. simpl.
  destruct (attrs instance f) as [| |o|m live stored] eqn:Hattr.
  - intros (g & ? & ?)%IH. exists g. split; [by constructor|done].
  - intros (g & ? & ?)%IH. exists g. split; [by constructor|done].
  - intros _. exists f. split; [constructor|]. left. by exists o.
  - case_bool_decide as Hlive; simpl.
    + unfold in_audit_ids.
      destruct (_audit_ids_to_notify_related_deletion instance)
        as [captured|] eqn:Hids; simpl.
      * case_bool_decide as Hkey.
        -- intros _. exists f. split; [constructor|]. right. right.
           destruct Hkey as [ids Hkey]. exists captured, ids.
           split_and!; [done..|]. by eapply Hcap.
        -- intros (g & ? & ?)%IH. exists g. split; [by constructor|done].
      * rewrite lookup_empty. rewrite bool_decide_eq_false_2 by (by intros [? [=]]).
        intros (g & ? & ?)%IH. exists g. split; [by constructor|done].
    + intros _. exists f. split; [constructor|]. right. left. by exists m, live, stored.
Qed.

(** C2.  Under a policy that requires a parent, a creation of an instance
    for which no parent exists leaves the world as it was: nothing is
    persisted, by the handler or by a cascade.  The severed-ids dict of the
    instance, if it has one, is one that [on_pre_delete] made. *)
Theorem no_parent_no_record self s :
  track_only_with_related self = true →
  captures_nonempty (instance s) →
  ¬ parent_exists self (instance s) →
  (on_post_save_create H self true s).2 = s
  ∧ persisted s (on_post_save_create H self true s).2 = [].
Proof.
  intros Htrack Hcap Hnone.
  assert ((on_post_save_create H self true s).2 = s) as Hsame.
  { destruct (on_post_save_create_run H self true s)
      as [?|(diff & _ & [_ Hgate] & _)]; [done|].
    exfalso. apply Hnone. unfold parent_exists.
    unfold no_parent, is_parent_object_exists in Hgate. rewrite Htrack in Hgate.
    destruct (notify_related self) as [l|]; [|done]. simpl in Hgate.
    destruct (is_parent_object_exists_loop (instance s) l) eqn:Hloop;
      [|discriminate Hgate].
    apply is_parent_object_exists_loop_true in Hloop; done. }
  split; [done|]. rewrite Hsame. unfold persisted. by rewrite drop_all.
Qed.

(** C4 (as amended).  Of the two handlers connected to the save signal, the one for
    updates returns at once on a creation and the one for creations at once
    on an update.  For an event that passes the disable switch and the
    parent gate: an update whose diff is computed and empty leaves the world
    as it was; a creation whose diff is computed persists one Created trail
    with that diff, empty or not, and after it only related-change trails;
    a deletion likewise persists one Deleted trail. *)
Theorem empty_diff_gating self s :
  passes_gates self s →
  on_post_save_update H self true s = (Ok tt, s)
  ∧ on_post_save_create H self false s = (Ok tt, s)
  ∧ (∀ original,
       _original_values (instance s) = Some original →
       get_changes H self (Some original)
         (Some (serialize_object H self (instance s))) = Ok ∅ →
       on_post_save_update H self false s = (Ok tt, s))
  ∧ (∀ diff,
       get_changes H self (Some ∅)
         (Some (serialize_object H self (instance s))) = Ok diff →
       ∃ rest,
         persisted s (on_post_save_create H self true s).2
         = with_changes diff (generate_trail Created (entity_of (instance s))) :: rest
         ∧ Forall (λ t, action t = RelatedChange) rest)
  ∧ (∀ diff,
       get_changes H self (Some (serialize_object H self (instance s)))
         (Some ∅) = Ok diff →
       ∃ rest,
         persisted s (on_post_delete H self s).2
         = with_changes diff (generate_trail Deleted (entity_of (instance s))) :: rest
         ∧ Forall (λ t, action t = RelatedChange) rest).
Proof.
  intros [Hd Hgate].
  assert (∀ n l0 s0 s1, trails s0 = trails s ++ l0 →
            grows_by (is_related_change n) s0 s1 →
            ∃ rest, persisted s s1 = l0 ++ rest
                    ∧ Forall (λ t, action t = RelatedChange) rest) as Hcascade.
  { intros n l0 s0 s1 Htr (rest & -> & Hrest). exists rest. split.
    - unfold persisted. simpl. by rewrite Htr, <-app_assoc, drop_app_length.
    - eapply Forall_impl; [done|]. by intros t [o ->]. }
  split_and!.
  - unfold on_post_save_update. py_run. by destruct (DISABLE_AUDIT_TRAIL s).
  - unfold on_post_save_create. py_run. by destruct (DISABLE_AUDIT_TRAIL s).
  - intros original Horig Hdiff. unfold on_post_save_update. py_run.
    rewrite Hd, Hgate, Horig. simpl. by rewrite Hdiff.
  - intros diff Hdiff.
    destruct (on_post_save_create_run H self true s)
      as [Hsame|(diff' & _ & _ & Hdiff' & ->)].
    + exfalso. revert Hsame. unfold on_post_save_create. py_run.
      rewrite Hd, Hgate. simpl. rewrite Hdiff. simpl.
      intros Hsame.
      pose proof (create_related_audit_trail_grows_by self (length (trails s))
        (after_save H self
           (with_changes diff (generate_trail Created (entity_of (instance s)))) s))
        as (rest & Hrest & _).
      unfold after_save, with_instance, add_trails in Hrest. simpl in Hrest.
      rewrite Hrest in Hsame. apply (f_equal trails) in Hsame. simpl in Hsame.
      apply (f_equal length) in Hsame. rewrite !length_app in Hsame.
      simpl in Hsame. lia.
    + assert (diff' = diff) as -> by congruence.
      eapply (Hcascade _ [_]); [|apply create_related_audit_trail_grows_by]. done.
  - intros diff Hdiff.
    destruct (on_post_delete_run H self s) as [Hsame|(diff' & _ & Hdiff' & ->)].
    + exfalso. revert Hsame. unfold on_post_delete. py_run.
      rewrite Hd, Hgate. simpl. rewrite Hdiff. simpl.
      intros Hsame.
      pose proof (create_deleted_related_audit_trail_grows_by self (length (trails s))
        (add_trails
           [with_changes diff (generate_trail Deleted (entity_of (instance s)))] s))
        as (rest & Hrest & _).
      unfold add_trails in Hrest. simpl in Hrest.
      rewrite Hrest in Hsame. apply (f_equal trails) in Hsame. simpl in Hsame.
      apply (f_equal length) in Hsame. rewrite !length_app in Hsame.
      simpl in Hsame. lia.
    + assert (diff' = diff) as -> by congruence.
      eapply (Hcascade _ [_]); [|apply create_deleted_related_audit_trail_grows_by]. done.
Qed.


(** The defect behind C9, in general: under a policy that requires a parent
    and has no notify-relations, every gated handler raises TypeError when
    auditing is on. *)
Lemma is_parent_object_exists_raises self s :
  track_only_with_related self = true →
  notify_related self = None →
  DISABLE_AUDIT_TRAIL s = false →
  on_post_save_create H self true s = (Err TypeError, s)
  ∧ on_post_save_update H self false s = (Err TypeError, s)
  ∧ on_post_delete H self s = (Err TypeError, s).
Proof.
  intros Htrack Hnone Hd.
  unfold on_post_save_create, on_post_save_update, on_post_delete.
  py_run. rewrite Hd. simpl.
  unfold no_parent, is_parent_object_exists. by rewrite Htrack, Hnone.
Qed.

End gates.

(** ** Deletion and the severed relations *)

Lemma capture_lookup instance field_names field_name ids :
  capture instance field_names !! field_name = Some ids ↔
  field_name ∈ field_names ∧ ids ≠ []
  ∧ ∃ m stored, attrs instance field_name = AttrManager m ids stored.
Proof.
  unfold capture.
  induction field_names as [|g l IH] using rev_ind.
  { simpl. rewrite lookup_empty. split; [done|]. by intros [?%elem_of_nil _]. }
  rewrite foldl_app. simpl. unfold on_pre_delete_field at 1.
  rewrite elem_of_app, list_elem_of_singleton.
  destruct (attrs instance g) as [| | |m live stored] eqn:Hg;
    try (rewrite IH; split;
         [ intros (?&?&?); by eauto
         | intros ([?| ->]&?&m&stored&Hm); [by eauto|congruence] ]).
  case_bool_decide as Hlive; simpl.
  - rewrite IH. split; [intros (?&?&?); by eauto|].
    intros ([?| ->]&?&m'&stored'&Hm); [by eauto|]. congruence.
  - destruct (decide (g = field_name)) as [->|Hne].
    + rewrite lookup_insert_eq. split.
      * intros [= <-]. split_and!; [by right|done|by eauto].
      * intros (_&_&m'&stored'&Hm). congruence.
    + rewrite lookup_insert_ne by done. rewrite IH.
      split; [intros (?&?&?); by eauto|].
      intros ([?| ->]&?&?); [by eauto|done].
Qed.

(** A loop over the notify-relations whose turns each persist the trails
    [g x] and return persists them all, in order. *)
Lemma for_each_run {A} (g : A → list AuditTrail) (l : list A)
    (body : A → Py World unit) (i : Instance) :
  (∀ x s, x ∈ l → instance s = i → body x s = (Ok tt, add_trails (g x) s)) →
  ∀ s, instance s = i →
    for_each l body s = (Ok tt, add_trails (flat_map g l) s).
Proof.
  induction l as [|x l IH]; intros Hbody s Hs.
  - simpl. by rewrite add_trails_nil.
  - simpl. unfold mbind, Py_bind at 1.
    rewrite (Hbody x s) by (done || constructor).
    rewrite IH; [|intros; apply Hbody; [by constructor|done]|done].
    by rewrite add_trails_app.
Qed.

(** When every captured row is still stored, the rows found are as many as
    the captured ids. *)
Lemma filter_captured_length (ids stored : list Z) :
  NoDup ids → NoDup stored → ids ⊆ stored →
  length (filter (λ i, i ∈ ids) stored) = length ids.
Proof.
  intros Hids Hstored Hsub. apply Permutation_length, NoDup_Permutation.
  - by apply NoDup_filter.
  - done.
  - intros i. rewrite list_elem_of_filter. split; [by intros [? _]|]. auto.
Qed.

Lemma filter_captured_nil (stored : list Z) : filter (λ i, i ∈ []) stored = [].
Proof.
  induction stored as [|i l IH]; [done|].
  rewrite filter_cons_False; [done|]. by intros ?%elem_of_nil.
Qed.

Section deletion.
Variable H : Host.
Implicit Types (self : AuditTrailWatcher) (s : World).

(** C3 (as amended).  With auditing on and notify-relations configured:
    the pre-delete step stores a fresh capture that maps exactly the
    non-empty collection relations among them to their member ids.  The
    post-delete step, when it passes the parent gate, its diff is computed
    and every notify-relation is an attribute of the instance, persists the
    Deleted trail and then, relation by relation, one related-change trail
    pointing at it for each notified entity: for a collection, each row
    still stored whose id was captured, whatever the live relation now
    enumerates.  When all captured rows are still stored these are as many
    as the captured ids. *)
Theorem severed_relations_notified self field_names :
  notify_related self = Some field_names → field_names ≠ [] →
  (∀ s, DISABLE_AUDIT_TRAIL s = false →
     on_pre_delete self s
     = (Ok tt,
        with_instance
          (set_audit_ids (capture (instance s) field_names) (instance s)) s)
     ∧ ∀ field_name ids,
         capture (instance s) field_names !! field_name = Some ids ↔
         field_name ∈ field_names ∧ ids ≠ []
         ∧ ∃ m stored, attrs (instance s) field_name = AttrManager m ids stored)
  ∧ (∀ s captured diff,
       passes_gates self s →
       _audit_ids_to_notify_related_deletion (instance s) = Some captured →
       (∀ field_name, field_name ∈ field_names →
          attrs (instance s) field_name ≠ AttrMissing) →
       get_changes H self (Some (serialize_object H self (instance s))) (Some ∅)
       = Ok diff →
       on_post_delete H self s
       = (Ok tt,
          add_trails
            (with_changes diff (generate_trail Deleted (entity_of (instance s)))
             :: flat_map (λ field_name,
                  related_change (length (trails s)) <$>
                    notified_on_delete (instance s) field_name) field_names)
            s))
  ∧ (∀ instance field_name m live stored ids,
       attrs instance field_name = AttrManager m live stored →
       captured_ids instance field_name = ids →
       NoDup ids → NoDup stored → ids ⊆ stored →
       length (notified_on_delete instance field_name) = length ids).
Proof.
  intros Hnotify Hne. split_and!.
  - intros s Hd. split; [|apply capture_lookup].
    unfold on_pre_delete. py_run. rewrite Hd, Hnotify.
    by destruct field_names.
  - intros s captured diff [Hd Hgate] Hcap Hattrs Hdiff.
    unfold on_post_delete. py_run. rewrite Hd, Hgate. simpl. rewrite Hdiff. simpl.
    unfold create_deleted_related_audit_trail. rewrite Hnotify.
    destruct field_names as [|f0 l0] eqn:Hl; [done|]. rewrite <-Hl in *.
    replace (negb (truthy (Some field_names))) with false by (by rewrite Hl).
    simpl default.
    set (t := with_changes diff (generate_trail Deleted (entity_of (instance s)))).
    set (s1 := {| DISABLE_AUDIT_TRAIL := DISABLE_AUDIT_TRAIL s;
                  instance := instance s; trails := trails s ++ [t] |}).
    rewrite (for_each_run
      (λ f, related_change (length (trails s)) <$> notified_on_delete (instance s) f)
      field_names _ (instance s)); [| | done].
    + f_equal. apply (add_trails_app [t]).
    + intros f s0 Hf Hs0. py_run. rewrite Hs0.
      unfold notified_on_delete, captured_ids. rewrite Hcap. simpl.
      specialize (Hattrs f Hf).
      destruct (attrs (instance s) f) as [| |o|m live stored]; [done| | |].
      * by rewrite add_trails_nil.
      * by rewrite notify_run.
      * destruct (captured !! f) as [[|i ids]|]; simpl;
          rewrite ?filter_captured_nil; simpl; rewrite ?add_trails_nil;
          [done|by rewrite notify_run|done].
  - intros instance f m live stored ids Hattr Hids ? ? ?.
    unfold notified_on_delete. rewrite Hattr, Hids, length_fmap.
    by apply filter_captured_length.
Qed.

End deletion.

(** ** Registration *)

Lemma connect_run sig h snd r :
  connect sig h snd r
  = (Ok tt,
     {| tracked_models := tracked_models r;
        audit := audit r;
        receivers :=
          let rcv := {| signal := sig; handler := h; sender := snd |} in
          if bool_decide (rcv ∈ receivers r) then receivers r
          else receivers r ++ [rcv] |}).
Proof. done. Qed.

(** C7.  The first registration of a model class returns True, records the
    class as tracked and attaches the watcher to it; any later registration
    of that class, by whatever watcher, returns False and leaves the tracked
    set, the attached watcher and everything else as they were. *)
Theorem contribute_to_class_twice self other cls r :
  cls ∉ tracked_models r →
  (contribute_to_class self cls r).1 = Ok (true, set_model_class cls self)
  ∧ tracked_models (contribute_to_class self cls r).2 = {[cls]} ∪ tracked_models r
  ∧ audit (contribute_to_class self cls r).2 !! cls = Some (set_model_class cls self)
  ∧ contribute_to_class other cls (contribute_to_class self cls r).2
    = (Ok (false, other), (contribute_to_class self cls r).2).
Proof.
  intros Hnew. unfold contribute_to_class. py_run.
  rewrite bool_decide_eq_false_2 by done. simpl.
  split_and!; [done|done|by rewrite lookup_insert_eq|].
  rewrite bool_decide_eq_true_2 by set_solver. done.
Qed.

Lemma connect_signals_run w r :
  connect_signals w r
  = (Ok tt,
     {| tracked_models := tracked_models r;
        audit := audit r;
        receivers := connected (receivers_of (model_class w)) (receivers r) |}).
Proof. done. Qed.

Lemma elem_of_connected rcvs l rcv :
  rcv ∈ connected rcvs l ↔ rcv ∈ l ∨ rcv ∈ rcvs.
Proof.
  unfold connected. revert l.
  induction rcvs as [|x rcvs IH]; intros l; simpl.
  - rewrite elem_of_nil. tauto.
  - rewrite IH, elem_of_cons. case_bool_decide as Hx.
    + split; [tauto|]. intros [?|[->|?]]; auto.
    + rewrite elem_of_app, list_elem_of_singleton. tauto.
Qed.

#[global] Arguments connect_signals : simpl never.
#[global] Arguments connected : simpl never.

Section registration_claims.
Variable H : Host.

(** A watcher without [track_related] has nothing to resolve, at any
    depth. *)
Lemma init_related_signals_no_track_related depth self r :
  truthy (track_related self) = false →
  init_related_signals H depth self r = (Ok tt, r).
Proof. intros Hno. destruct depth; simpl; by rewrite Hno. Qed.

(** With relations to resolve and nesting allowed, [init_related_signals]
    is the loop of its turns. *)
Lemma init_related_signals_loop depth self :
  truthy (track_related self) = true →
  init_related_signals H (S depth) self
  = for_each (default [] (track_related self))
      (init_related_signals_for H (init_signals H depth) self).
Proof. intros Htrack. simpl. by rewrite Htrack. Qed.

(** C6 (as amended).  One turn of the loop of [init_related_signals], for a
    relation of the watcher's model class that is a reverse descriptor or a
    forward foreign key.  The back-reference name is the descriptor's field
    name for a reverse descriptor; for a forward key it is the query name if
    the related model has an attribute of that name, else the query name with
    [_set] appended.  The turn returns.  If the related model had no
    watcher, it is now tracked, the watcher attached to it requires a
    parent and has no tracked relations, its receivers are connected, and its
    notify-relations are the back-reference name alone; its field list is
    unset, so that the differ iterates all fields of the related model.  If
    it had one, that watcher is kept, with the back-reference name appended
    to its notify-relations. *)
Theorem relation_resolved depth self cls attr_name d
    related_model related_field_name r :
  registry_consistent r →
  model_class self = Some cls →
  class_attr H cls attr_name = Some d →
  d = ReverseDescriptor related_model related_field_name
  ∨ (∃ related_query_name,
       d = ForwardDescriptor related_model related_query_name
       ∧ related_field_name
         = if class_hasattr H r related_model related_query_name
           then related_query_name
           else related_query_name +:+ "_set") →
  ∃ r',
    init_related_signals_for H (init_signals H depth) self attr_name r = (Ok tt, r')
    ∧ registry_consistent r'
    ∧ match audit r !! related_model with
      | None =>
        tracked_models r' = {[related_model]} ∪ tracked_models r
        ∧ audit r' = <[related_model := shadow related_model related_field_name]> (audit r)
        ∧ (∀ rcv, rcv ∈ receivers r' ↔
             rcv ∈ receivers r ∨ rcv ∈ receivers_of (Some related_model))
        ∧ fields (shadow related_model related_field_name) = None
        ∧ diff_fields H (shadow related_model related_field_name) related_model
          = name <$> meta_fields H related_model
      | Some w =>
        tracked_models r' = tracked_models r
        ∧ audit r'
          = <[related_model :=
                set_notify_related
                  (extended (notify_related w) related_field_name) w]> (audit r)
        ∧ receivers r' = receivers r
      end.
Proof.
  intros Hcons Hcls Hattr Hd. unfold registry_consistent in *.
  assert (related_of H self attr_name r = (Ok (related_model, related_field_name), r))
    as Hrel.
  { unfold related_of. py_run. rewrite Hcls. simpl. rewrite Hattr. simpl.
    destruct Hd as [->|(q & -> & ->)]; [done|].
    by destruct (class_hasattr H r related_model q). }
  unfold init_related_signals_for. unfold mbind at 1, Py_bind at 1.
  rewrite Hrel. py_run.
  destruct (audit r !! related_model) as [w|] eqn:Hw.
  - rewrite bool_decide_eq_true_2 by eauto. simpl.
    unfold add_notify_related. py_run. rewrite Hw. simpl.
    eexists. split; [done|]. simpl. split_and!; try done.
    + intros c. simpl. rewrite (Hcons c).
      destruct (decide (c = related_model)) as [->|].
      * rewrite lookup_insert_eq, Hw. split; eauto.
      * by rewrite lookup_insert_ne.
    + do 2 f_equal. unfold extended.
      by destruct (notify_related w) as [[|]|].
  - rewrite bool_decide_eq_false_2 by (by intros [? [=]]). simpl.
    assert (related_model ∉ tracked_models r) as Hnew.
    { rewrite Hcons, Hw. by intros [? [=]]. }
    unfold contribute_to_class. py_run.
    rewrite bool_decide_eq_false_2 by done. simpl.
    unfold init_signals. unfold mbind at 1, Py_bind at 1.
    rewrite connect_signals_run. simpl.
    rewrite init_related_signals_no_track_related by done.
    unfold add_notify_related. py_run. rewrite lookup_insert_eq. simpl.
    eexists. split; [done|]. simpl. split_and!; try done.
    + intros c. simpl. rewrite elem_of_union, elem_of_singleton, (Hcons c).
      destruct (decide (c = related_model)) as [->|].
      * rewrite lookup_insert_eq. split; eauto.
      * rewrite !lookup_insert_ne by done.
        split; [intros [?|?]; [congruence|done]|auto].
    + by rewrite insert_insert_eq.
    + intros rcv. apply elem_of_connected.
Qed.

End registration_claims.

(** ** Concrete runs on the blog *)

Section blog.
Import Blog.

Local Ltac in_list := repeat (first [apply list_elem_of_here | apply list_elem_of_further]).

(** C1, as first stated, fails: comment 5 points at post 7, which is gone.
    The diff raises DoesNotExist, the [text] field is never compared, and
    the creation handler passes the exception on without a trail. *)
Lemma stale_reference_counterexample :
  get_changes host comment_audit (Some ∅)
    (Some (serialize_object host comment_audit (a_comment 7 AttrNone)))
  = Err DoesNotExist
  ∧ on_post_save_create host comment_audit true (world false (a_comment 7 AttrNone))
    = (Err DoesNotExist, world false (a_comment 7 AttrNone)).
Proof. split; vm_compute; reflexivity. Qed.

Lemma stale_reference_aborts_diff_witness :
  get_fk_value host comment_audit "post" (VInt 7) = Err DoesNotExist
  ∧ is_Err (get_changes host comment_audit (Some ∅) (Some {[ "post" := VInt 7 ]})).
Proof.
  apply (stale_reference_aborts_diff host comment_audit "Comment"
           (Some ∅) (Some {[ "post" := VInt 7 ]}) "post" f_post (VInt 7) 7);
    try reflexivity.
  - in_list.
  - right. reflexivity.
Defined.

Lemma no_parent_no_record_witness :
  (on_post_save_create host (shadow "Comment" "post") true
     (world false (a_comment 1 AttrNone))).2
  = world false (a_comment 1 AttrNone)
  ∧ persisted (world false (a_comment 1 AttrNone))
      (on_post_save_create host (shadow "Comment" "post") true
         (world false (a_comment 1 AttrNone))).2 = [].
Proof.
  apply (no_parent_no_record host (shadow "Comment" "post")
           (world false (a_comment 1 AttrNone))).
  - reflexivity.
  - intros captured f ids Hcap. discriminate Hcap.
  - intros (f & Hf & Hparent). simpl in Hf.
    apply list_elem_of_singleton in Hf as ->.
    destruct Hparent as [(o & Ho)|[(m & live & stored & Hm & _)|(c & ids & Hc & _)]];
      discriminate.
Defined.

(** C3, as first stated, fails: the three comments were captured before
    the delete, but the delete removed them with the post; the post-delete
    step finds no row for the captured ids and persists the Deleted trail
    alone. *)
Lemma severed_relations_counterexample :
  _audit_ids_to_notify_related_deletion
    (instance (on_pre_delete post_notifying (world false post_before_delete)).2)
  = Some {[ "comment_set" := [1; 2; 3]%Z ]}
  ∧ (on_post_delete host post_notifying (world false (post_after_delete []))).1
    = Ok tt
  ∧ action <$> trails
      (on_post_delete host post_notifying (world false (post_after_delete []))).2
    = [Deleted].
Proof. split_and!; vm_compute; reflexivity. Qed.

(** Scenario D, with the comments kept by the delete: one Deleted trail
    and three related-change trails pointing at it. *)
Lemma severed_relations_notified_witness :
  on_pre_delete post_notifying (world false post_before_delete)
  = (Ok tt,
     world false (set_audit_ids {[ "comment_set" := [1; 2; 3]%Z ]} post_before_delete))
  ∧ (∃ diff,
       on_post_delete host post_notifying (world false (post_after_delete [1; 2; 3]%Z))
       = (Ok tt,
          add_trails
            [ with_changes diff
                (generate_trail Deleted {| entity_model := "Post"; entity_id := 1 |});
              related_change 0 {| entity_model := "Comment"; entity_id := 1 |};
              related_change 0 {| entity_model := "Comment"; entity_id := 2 |};
              related_change 0 {| entity_model := "Comment"; entity_id := 3 |} ]
            (world false (post_after_delete [1; 2; 3]%Z))))
  ∧ length (notified_on_delete (post_after_delete [1; 2; 3]%Z) "comment_set") = 3.
Proof.
  destruct (severed_relations_notified host post_notifying ["comment_set"])
    as (Hpre & Hpost & Hcount); [reflexivity|discriminate|].
  split_and!.
  - destruct (Hpre (world false post_before_delete)) as [-> _]; reflexivity.
  - eexists. erewrite (Hpost (world false (post_after_delete [1; 2; 3]%Z))).
    + reflexivity.
    + split; reflexivity.
    + reflexivity.
    + intros f ->%list_elem_of_singleton. discriminate.
    + vm_compute. reflexivity.
  - apply (Hcount _ _ "Comment" [] [1; 2; 3]%Z [1; 2; 3]%Z); try reflexivity.
    + repeat constructor; intros Hin; repeat (apply elem_of_cons in Hin as [Hin|Hin]; [discriminate|]); by apply elem_of_nil in Hin.
    + repeat constructor; intros Hin; repeat (apply elem_of_cons in Hin as [Hin|Hin]; [discriminate|]); by apply elem_of_nil in Hin.
Defined.

Lemma empty_diff_gating_witness :
  on_post_save_update host post_audit false (world false a_post_loaded)
  = (Ok tt, world false a_post_loaded)
  ∧ (∃ diff rest,
       persisted (world false a_post_loaded)
         (on_post_save_create host post_audit true (world false a_post_loaded)).2
       = with_changes diff
           (generate_trail Created {| entity_model := "Post"; entity_id := 1 |}) :: rest)
  ∧ (∃ diff rest,
       persisted (world false a_post_loaded)
         (on_post_delete host post_audit (world false a_post_loaded)).2
       = with_changes diff
           (generate_trail Deleted {| entity_model := "Post"; entity_id := 1 |}) :: rest).
Proof.
  destruct (empty_diff_gating host post_audit (world false a_post_loaded))
    as (_ & _ & Hupdate & Hcreate & Hdelete); [split; reflexivity|].
  split_and!.
  - eapply Hupdate; [reflexivity|]. vm_compute. reflexivity.
  - edestruct Hcreate as (rest & Hrest & _); [vm_compute; reflexivity|].
    eexists _, rest. exact Hrest.
  - edestruct Hdelete as (rest & Hrest & _); [vm_compute; reflexivity|].
    eexists _, rest. exact Hrest.
Defined.

(** C5, as first stated, fails twice.  A snapshot whose foreign key points
    at a missing row has no diff with itself: the differ raises.  And with
    an empty tracked list, where no field is left to differ, the differ
    falls back on all fields of the model and reports the title. *)
Lemma diff_empty_counterexample :
  get_changes host comment_audit
    (Some {[ "post" := VInt 7 ]}) (Some {[ "post" := VInt 7 ]})
  = Err DoesNotExist
  ∧ fields post_no_fields = Some []
  ∧ get_changes host post_no_fields
      (Some {[ "title" := VStr "a" ]}) (Some {[ "title" := VStr "b" ]})
    = Ok {[ "title" := {| old_value := VStr "a"; new_value := VStr "b" |} ]}.
Proof. split_and!; vm_compute; reflexivity. Qed.

Lemma get_changes_empty_iff_witness :
  get_changes host post_audit
    (Some (serialize_object host post_audit a_post))
    (Some (serialize_object host post_audit a_post))
  = Ok ∅.
Proof.
  apply (get_changes_empty_iff host post_audit "Post"
           (Some (serialize_object host post_audit a_post))
           (Some (serialize_object host post_audit a_post)));
    [reflexivity|].
  intros f Hf.
  repeat (apply elem_of_cons in Hf as [->|Hf];
          [eexists; vm_compute; reflexivity|]).
  by apply elem_of_nil in Hf.
Defined.

Lemma relation_resolved_witness :
  ∃ r',
    init_related_signals_for host (init_signals host 0) comment_tracking "post"
      comment_declared = (Ok tt, r')
    ∧ tracked_models r' = {[ "Post" ]} ∪ {[ "Comment" ]}
    ∧ audit r' !! "Post" = Some (shadow "Post" "comment_set").
Proof.
  destruct (relation_resolved host 0 comment_tracking "Comment" "post"
              (ForwardDescriptor "Post" "comment") "Post" "comment_set"
              comment_declared)
    as (r' & Hrun & _ & Htracked & Haudit & _).
  - intros c. unfold comment_declared. simpl.
    rewrite elem_of_singleton.
    destruct (decide (c = "Comment")) as [->|Hne].
    + rewrite lookup_singleton_eq. split; eauto.
    + rewrite lookup_singleton_ne by done. split; [done|by intros [? [=]]].
  - reflexivity.
  - reflexivity.
  - right. exists "comment". split; reflexivity.
  - exists r'. split_and!; [done|done|]. rewrite Haudit. apply lookup_insert_eq.
Defined.

Lemma contribute_to_class_twice_witness :
  (contribute_to_class (__init__ None None None false None) "Post" nothing_declared).1
  = Ok (true, post_audit)
  ∧ contribute_to_class (__init__ (Some ["title"]) None None false None) "Post"
      (contribute_to_class (__init__ None None None false None) "Post" nothing_declared).2
    = (Ok (false, __init__ (Some ["title"]) None None false None),
       (contribute_to_class (__init__ None None None false None) "Post" nothing_declared).2).
Proof.
  destruct (contribute_to_class_twice (__init__ None None None false None)
              (__init__ (Some ["title"]) None None false None) "Post" nothing_declared)
    as (Hfirst & _ & _ & Hsecond); [apply not_elem_of_empty|].
  split; [exact Hfirst|exact Hsecond].
Defined.



(** C9.  A comment is created while [Comment] carries
    [AuditTrailWatcher(track_only_with_related=True)] and no model tracks
    comments, auditing being on.  Each gated handler raises TypeError from
    [is_parent_object_exists] instead of returning. *)
Theorem requires_parent_without_notify_relations_raises :
  notify_related requiring_parent = None
  ∧ on_post_save_create host requiring_parent true (world false (a_comment 1 AttrNone))
    = (Err TypeError, world false (a_comment 1 AttrNone))
  ∧ on_post_save_update host requiring_parent false (world false (a_comment 1 AttrNone))
    = (Err TypeError, world false (a_comment 1 AttrNone))
  ∧ on_post_delete host requiring_parent (world false (a_comment 1 AttrNone))
    = (Err TypeError, world false (a_comment 1 AttrNone)).
Proof. split_and!; vm_compute; reflexivity. Qed.

Lemma changes_omit_excluded_fields_witness :
  fields post_tracking_id = Some ["id"; "title"]
  ∧ ∀ t, t ∈ persisted (world false a_post)
             (on_post_save_create host post_tracking_id true (world false a_post)).2 →
         changes t !! "id" = None.
Proof.
  split; [reflexivity|]. intros t Ht.
  eapply (proj2 (changes_omit_excluded_fields host post_tracking_id true
                   (world false a_post))).
  - intros data f Hdata. discriminate Hdata.
  - left. reflexivity.
  - exact Ht.
  - in_list.
Defined.

End blog.

(** * Further properties of the module *)

(** ** What a snapshot and a diff contain *)

Section contents.
Variable H : Host.
Implicit Types (self : AuditTrailWatcher) (cls field_name : string).
Implicit Types (old_values new_values : gmap string pyval).
Implicit Types (diff : gmap string Change).

(** A snapshot has a key exactly for the fields of the model that are in the
    field list, if there is one, and are not excluded; the value is the
    field's value on the instance. *)
Theorem serialize_object_lookup self instance field_name v :
  serialize_object H self instance !! field_name = Some v ↔
  v = field_values instance field_name
  ∧ (∃ field, field ∈ meta_fields H (inst_model instance) ∧ name field = field_name)
  ∧ (∀ l, fields self = Some l → field_name ∈ l)
  ∧ field_name ∉ excluded_fields self.
Proof.
  unfold serialize_object.
  generalize (meta_fields H (inst_model instance)). intros l.
  induction l as [|f l IH] using rev_ind.
  { simpl. rewrite lookup_empty. split; [done|].
    intros (_ & (field & []%elem_of_nil & _) & _). }
  rewrite foldl_app. simpl.
  assert ((∃ field, field ∈ l ++ [f] ∧ name field = field_name)
          ↔ (∃ field, field ∈ l ∧ name field = field_name) ∨ name f = field_name)
    as ->.
  { setoid_rewrite elem_of_app. setoid_rewrite list_elem_of_singleton.
    split; [intros (field & [?| ->] & ?); eauto|].
    intros [(field & ? & ?)|?]; eauto. }
  destruct (decide (name f = field_name)) as [Heq|Hne].
  - destruct (_ || bool_decide (name f ∈ excluded_fields self)) eqn:Hskip.
    + rewrite IH. apply orb_true_iff in Hskip.
      split; [intros (?&?&?&?); by eauto|]. intros (_ & _ & Hin & Hex).
      exfalso. destruct Hskip as [Hskip|Hskip%bool_decide_eq_true].
      * destruct (fields self) as [l0|]; [|done].
        apply negb_true_iff, bool_decide_eq_false in Hskip.
        apply Hskip. rewrite Heq. by apply Hin.
      * apply Hex. by rewrite <-Heq.
    + apply orb_false_iff in Hskip as [Hin Hex%bool_decide_eq_false].
      rewrite Heq, lookup_insert_eq. split.
      * intros [= <-]. split_and!; [done|by right| |by rewrite <-Heq].
        intros l0 Hl0. rewrite Hl0 in Hin.
        apply negb_false_iff, bool_decide_eq_true in Hin. by rewrite <-Heq.
      * by intros (-> & _).
  - destruct (_ || bool_decide (name f ∈ excluded_fields self));
      [|rewrite lookup_insert_ne by done];
      rewrite IH;
      (split; [intros (?&?&?&?); by eauto|intros (?&[?|?]&?&?); [by eauto|done]]).
Qed.

(** Outside the names it iterates the loop leaves the diff alone. *)
Lemma get_changes_loop_other self cls old_values new_values field_names g :
  g ∉ field_names →
  ∀ diff diff',
  get_changes_loop H self cls old_values new_values field_names diff = Ok diff' →
  diff' !! g = diff !! g.
Proof.
  induction field_names as [|f rest IH]; intros Hg diff diff' Hloop.
  - by injection Hloop as <-.
  - simpl in Hloop.
    destruct (get_changes_field H self cls old_values new_values diff f)
      as [diff1|] eqn:Hstep; [|done].
    simpl in Hloop. apply not_elem_of_cons in Hg as [Hne Hg].
    rewrite (IH Hg _ _ Hloop).
    apply get_changes_field_Ok in Hstep as (vo & vn & _ & _ & ->).
    case_bool_decide; [by rewrite lookup_insert_ne|done].
Qed.

(** For a name it iterates, the loop records the two rendered values when
    they differ and leaves the diff alone when they agree. *)
Lemma get_changes_loop_lookup self cls old_values new_values field_names g vo vn :
  g ∈ field_names →
  render H self cls g (value_in (Some old_values) g) = Ok vo →
  render H self cls g (value_in (Some new_values) g) = Ok vn →
  ∀ diff diff',
  get_changes_loop H self cls old_values new_values field_names diff = Ok diff' →
  diff' !! g = if bool_decide (vo ≠ vn)
               then Some {| old_value := vo; new_value := vn |}
               else diff !! g.
Proof.
  intros Hg Ho Hn.
  induction field_names as [|f rest IH]; intros diff diff' Hloop.
  - by apply elem_of_nil in Hg.
  - simpl in Hloop.
    destruct (get_changes_field H self cls old_values new_values diff f)
      as [diff1|] eqn:Hstep; [|done].
    simpl in Hloop.
    apply get_changes_field_Ok in Hstep as (vo' & vn' & Ho' & Hn' & ->).
    destruct (decide (g ∈ rest)) as [Hrest|Hrest].
    + rewrite (IH Hrest _ _ Hloop).
      destruct (decide (vo = vn)) as [Heq|Hd];
        [|by rewrite (bool_decide_eq_true_2 (vo ≠ vn))].
      rewrite (bool_decide_eq_false_2 (vo ≠ vn)) by auto.
      destruct (decide (f = g)) as [->|Hne].
      * assert (vo' = vo) as -> by congruence.
        assert (vn' = vn) as -> by congruence.
        by rewrite bool_decide_eq_false_2 by auto.
      * case_bool_decide; [by rewrite lookup_insert_ne|done].
    + apply elem_of_cons in Hg as [->|?]; [|done].
      rewrite (get_changes_loop_other _ _ _ _ _ _ Hrest _ _ Hloop).
      assert (vo' = vo) as -> by congruence.
      assert (vn' = vn) as -> by congruence.
      case_bool_decide; [by rewrite lookup_insert_eq|done].
Qed.

(** The loop returns when every name renders in both snapshots. *)
Lemma get_changes_loop_returns self cls old_values new_values field_names :
  (∀ g, g ∈ field_names →
     ∃ vo vn, render H self cls g (value_in (Some old_values) g) = Ok vo
            ∧ render H self cls g (value_in (Some new_values) g) = Ok vn) →
  ∀ diff, ∃ diff',
    get_changes_loop H self cls old_values new_values field_names diff = Ok diff'.
Proof.
  induction field_names as [|f rest IH]; intros Hall diff; [by eexists|].
  simpl. destruct (Hall f) as (vo & vn & Ho & Hn); [constructor|].
  destruct (get_changes_field H self cls old_values new_values diff f)
    as [diff1|] eqn:Hstep.
  - simpl. apply IH. intros g Hg. apply Hall. by constructor.
  - assert (∃ d, get_changes_field H self cls old_values new_values diff f = Ok d)
      as [d Hd]; [|congruence].
    eexists. apply get_changes_field_Ok. by exists vo, vn.
Qed.

(** The entries of a diff: a field is recorded exactly when the differ
    iterates it and its two rendered values differ, and it is recorded with
    those values. *)
Theorem get_changes_lookup self cls (old new : option (gmap string pyval))
    diff field_name change :
  model_class self = Some cls →
  get_changes H self old new = Ok diff →
  diff !! field_name = Some change ↔
  field_name ∈ diff_fields H self cls
  ∧ render H self cls field_name (value_in old field_name) = Ok (old_value change)
  ∧ render H self cls field_name (value_in new field_name) = Ok (new_value change)
  ∧ old_value change ≠ new_value change.
Proof.
  intros Hcls. unfold get_changes. rewrite Hcls. simpl. intros Hloop.
  destruct (decide (field_name ∈ diff_fields H self cls)) as [Hin|Hout].
  - destruct (get_changes_loop_Ok _ _ _ _ _ _ _ _ Hloop _ Hin)
      as (vo & vn & Ho & Hn).
    rewrite (get_changes_loop_lookup _ _ _ _ _ _ _ _ Hin Ho Hn _ _ Hloop).
    unfold value_in in *. simpl in Ho, Hn. rewrite Ho, Hn.
    case_bool_decide as Hd.
    + split.
      * intros [= <-]. by split_and!.
      * intros (_ & [= Hvo] & [= Hvn] & _). destruct change. simpl in *. congruence.
    + rewrite lookup_empty. split; [done|].
      intros (_ & [= Hvo] & [= Hvn] & Hne). congruence.
  - rewrite (get_changes_loop_other _ _ _ _ _ _ Hout _ _ Hloop), lookup_empty.
    split; [done|]. by intros (? & _).
Qed.

(** Diffing the other way round gives the same fields with each change read
    backwards. *)
Theorem get_changes_swap self (old new : option (gmap string pyval)) diff :
  get_changes H self old new = Ok diff →
  get_changes H self new old = Ok (swap_change <$> diff).
Proof.
  unfold get_changes. destruct (model_class self) as [cls|] eqn:Hcls; [|done].
  simpl. intros Hloop.
  destruct (get_changes_loop_returns self cls (default ∅ new) (default ∅ old)
              (diff_fields H self cls)) with (diff := (∅ : gmap string Change))
    as [diff' Hloop'].
  { intros g Hg.
    destruct (get_changes_loop_Ok _ _ _ _ _ _ _ _ Hloop _ Hg) as (vo & vn & ? & ?).
    by exists vn, vo. }
  rewrite Hloop'. f_equal. apply map_eq. intros g. rewrite lookup_fmap.
  destruct (decide (g ∈ diff_fields H self cls)) as [Hin|Hout].
  - destruct (get_changes_loop_Ok _ _ _ _ _ _ _ _ Hloop _ Hin)
      as (vo & vn & Ho & Hn).
    rewrite (get_changes_loop_lookup _ _ _ _ _ _ _ _ Hin Hn Ho _ _ Hloop').
    rewrite (get_changes_loop_lookup _ _ _ _ _ _ _ _ Hin Ho Hn _ _ Hloop).
    rewrite lookup_empty.
    destruct (decide (vo = vn)) as [->|Hne].
    + by rewrite !bool_decide_eq_false_2 by auto.
    + by rewrite !bool_decide_eq_true_2 by auto.
  - rewrite (get_changes_loop_other _ _ _ _ _ _ Hout _ _ Hloop').
    by rewrite (get_changes_loop_other _ _ _ _ _ _ Hout _ _ Hloop), lookup_empty.
Qed.

End contents.

(** ** Rendered references *)

Lemma pretty_N_char_no_bracket x : pretty_N_char x ≠ closing_bracket.
Proof. unfold pretty_N_char. by repeat case_match. Qed.

Lemma pretty_N_go_bracket_free x s :
  bracket_free s → bracket_free (pretty_N_go x s).
Proof.
  revert s. induction (N.lt_wf_0 x) as [x _ IH]; intros s Hs.
  assert (x = 0 ∨ 0 < x)%N as [->|?] by lia.
  - by rewrite pretty_N_go_0.
  - rewrite pretty_N_go_step by done. apply IH.
    + by apply N.div_lt.
    + split; [apply pretty_N_char_no_bracket|done].
Qed.

Lemma pretty_Z_bracket_free (n : Z) : bracket_free (pretty n).
Proof.
  assert (∀ p : positive, bracket_free (pretty p)) as Hpos.
  { intros p. unfold pretty, pretty_positive, pretty, pretty_N.
    case_decide; [by split|]. by apply pretty_N_go_bracket_free. }
  destruct n as [|p|p]; [by split|apply Hpos|].
  unfold pretty, pretty_Z. split; [done|apply Hpos].
Qed.

(** Two texts that agree and each have a bracket-free part before a closing
    bracket agree on that part. *)
Lemma bracket_free_prefix_eq a b x y :
  bracket_free a → bracket_free b →
  a +:+ String closing_bracket x = b +:+ String closing_bracket y → a = b.
Proof.
  revert b. induction a as [|c a IH]; intros [|d b]; simpl.
  - done.
  - intros _ [Hd _] [= Heq _]. by destruct Hd.
  - intros [Hc _] _ [= Heq _]. by destruct Hc.
  - intros [_ Ha] [_ Hb] [= -> Heq]. f_equal. by apply IH.
Qed.

Section references.
Variable H : Host.

(** Two values that [get_fk_value] renders alike are both [None] or stand for
    the same key. *)
Lemma get_fk_value_same_key self field_name v1 v2 r :
  get_fk_value H self field_name v1 = Ok r →
  get_fk_value H self field_name v2 = Ok r →
  same_key H v1 v2.
Proof.
  unfold same_key.
  assert (∀ v r, get_fk_value H self field_name v = Ok r →
            (v = VNone ∧ r = VNone)
            ∨ ∃ n string, py_int H v = Ok n
                ∧ r = VStr ("[#" +:+ pretty n +:+ "] " +:+ string)) as Hshape.
  { intros v r0. unfold get_fk_value.
    destruct v as [|n|s]; [intros [= <-]; by left| |];
      (destruct (py_int H _) as [k|] eqn:Hk; simpl; [|done]);
      (destruct (model_class self); simpl; [|done]);
      (destruct (related_unicode H _ _ _) as [string|]; simpl; [|done]);
      intros [= <-]; right; by exists k, string. }
  intros [[-> ->]|(n1 & s1 & Hn1 & ->)]%Hshape
         [[-> Heq]|(n2 & s2 & Hn2 & Heq)]%Hshape; try done.
  - by left.
  - right. exists n1. split; [done|]. rewrite Hn2. f_equal.
    injection Heq as Heq.
    apply (inj pretty).
    eapply (bracket_free_prefix_eq _ _ (" " +:+ s2) (" " +:+ s1));
      [apply pretty_Z_bracket_free..|].
    symmetry. exact Heq.
Qed.

(** A reference that moves is always reported.  When a foreign-key field
    without choices, one the differ iterates, holds different keys in the
    two snapshots (one of them may be [None]), a diff that is computed
    records the field, whatever the referenced rows display as. *)
Theorem changed_reference_is_recorded self cls
    (old new : option (gmap string pyval)) diff field_name field :
  model_class self = Some cls →
  get_changes H self old new = Ok diff →
  field_name ∈ diff_fields H self cls →
  meta_get_field H cls field_name = Some field →
  is_ForeignKey field = true →
  choices field = false →
  ¬ same_key H (value_in old field_name) (value_in new field_name) →
  ∃ change,
    diff !! field_name = Some change
    ∧ get_fk_value H self field_name (value_in old field_name) = Ok (old_value change)
    ∧ get_fk_value H self field_name (value_in new field_name) = Ok (new_value change).
Proof.
  intros Hcls. unfold get_changes. rewrite Hcls. simpl.
  intros Hloop Hin Hfield Hfk Hchoices Hkeys.
  destruct (get_changes_loop_Ok _ _ _ _ _ _ _ _ Hloop _ Hin) as (vo & vn & Ho & Hn).
  rewrite (get_changes_loop_lookup _ _ _ _ _ _ _ _ _ Hin Ho Hn _ _ Hloop).
  unfold render, value_in in Ho, Hn. simpl in Ho, Hn.
  rewrite Hfield in Ho, Hn. simpl in Ho, Hn. rewrite Hfk, Hchoices in Ho, Hn.
  unfold value_in in *.
  destruct (get_fk_value H self field_name (default VNone (default ∅ old !! field_name)))
    as [ro|] eqn:Hro; [|done].
  destruct (get_fk_value H self field_name (default VNone (default ∅ new !! field_name)))
    as [rn|] eqn:Hrn; [|done].
  simpl in Ho, Hn. injection Ho as <-. injection Hn as <-.
  destruct (decide (ro = rn)) as [->|Hne].
  - destruct Hkeys. by eapply get_fk_value_same_key.
  - rewrite bool_decide_eq_true_2 by done. by eexists.
Qed.

End references.

(** ** What the handlers leave alone, and what a save persists *)

Lemma only_appends_refl s : only_appends s s.
Proof. unfold only_appends. split_and!; try done. exists []. by rewrite app_nil_r. Qed.

Lemma for_each_stops {S A} (l1 l2 : list A) (x : A) (body : A → Py S unit)
    (e : exn) (s s1 s2 : S) :
  for_each l1 body s = (Ok tt, s1) →
  body x s1 = (Err e, s2) →
  for_each (l1 ++ x :: l2) body s = (Err e, s2).
Proof.
  revert s. induction l1 as [|y l1 IH]; intros s; simpl.
  - intros [= <-] Hx. unfold mbind, Py_bind. by rewrite Hx.
  - unfold mbind, Py_bind.
    destruct (body y s) as [[[]|e'] s']; [|done]. apply IH.
Qed.

Lemma is_parent_object_exists_loop_ext (i i' : Instance) field_names :
  attrs i' = attrs i →
  _audit_ids_to_notify_related_deletion i' = _audit_ids_to_notify_related_deletion i →
  is_parent_object_exists_loop i' field_names
  = is_parent_object_exists_loop i field_names.
Proof.
  intros Hattrs Hids. induction field_names as [|f l IH]; [done|].
  simpl. unfold in_audit_ids. by rewrite Hattrs, Hids, IH.
Qed.

Lemma no_parent_ext self (i i' : Instance) :
  attrs i' = attrs i →
  _audit_ids_to_notify_related_deletion i' = _audit_ids_to_notify_related_deletion i →
  no_parent self i' = no_parent self i.
Proof.
  intros Hattrs Hids. unfold no_parent, is_parent_object_exists.
  destruct (track_only_with_related self); [|done].
  destruct (notify_related self) as [l|]; [|done]. simpl.
  by rewrite (is_parent_object_exists_loop_ext i i').
Qed.

(** A loop that returned, each of whose turns persists the trails [g x] when
    it returns, has persisted them all, in order. *)
Lemma for_each_returned {A} (g : A → list AuditTrail) (l : list A)
    (body : A → Py World unit) (i : Instance) :
  (∀ x s s1, x ∈ l → instance s = i →
     body x s = (Ok tt, s1) → s1 = add_trails (g x) s) →
  ∀ s s', instance s = i →
    for_each l body s = (Ok tt, s') → s' = add_trails (flat_map g l) s.
Proof.
  induction l as [|x l IH]; intros Hbody s s' Hs.
  - simpl. intros [= <-]. by rewrite add_trails_nil.
  - simpl. unfold mbind, Py_bind.
    destruct (body x s) as [[[]|e] s1] eqn:Hx; [|done].
    apply Hbody in Hx; [|constructor|done]. subst s1.
    intros Hrest. apply IH in Hrest; [|intros; eapply Hbody; [by constructor|done..]|done].
    by rewrite Hrest, add_trails_app.
Qed.

Section saves.
Variable H : Host.
Implicit Types (self : AuditTrailWatcher) (s : World).

Lemma serialize_object_ext self (i i' : Instance) :
  inst_model i' = inst_model i → field_values i' = field_values i →
  serialize_object H self i' = serialize_object H self i.
Proof. intros Hm Hv. unfold serialize_object. by rewrite Hm, Hv. Qed.

(** The answer of [is_parent_object_exists], when it returns one, is True
    exactly when one of the notify-relations evaluates to a related object,
    or to a manager that has members or a capture under the relation's name.
    A capture for a relation that evaluates to [None], or that the instance
    lacks, does not count. *)
Theorem is_parent_object_exists_iff self instance b :
  is_parent_object_exists self instance = Ok b →
  b = true ↔
  ∃ field_name, field_name ∈ default [] (notify_related self) ∧
    ((∃ o, attrs instance field_name = AttrObject o)
     ∨ ∃ m live stored,
         attrs instance field_name = AttrManager m live stored
         ∧ (live ≠ []
            ∨ is_Some (default ∅ (_audit_ids_to_notify_related_deletion instance)
                       !! field_name))).
Proof.
  unfold is_parent_object_exists.
  destruct (notify_related self) as [field_names|]; [|done]. simpl.
  intros [= <-].
  induction field_names as [|f l IH]; simpl.
  { split; [done|]. by intros (? & ?%elem_of_nil & _). }
  assert (∀ P : string → Prop,
            (∃ g, g ∈ f :: l ∧ P g) ↔ P f ∨ ∃ g, g ∈ l ∧ P g) as Hex.
  { intros P. setoid_rewrite elem_of_cons. split.
    - intros (g & [->|?] & ?); eauto.
    - intros [?|(g & ? & ?)]; eauto. }
  rewrite Hex. clear Hex.
  destruct (attrs instance f) as [| |o|m live stored] eqn:Hattr.
  - rewrite IH. split; [by right|]. by intros [[(?&?)|(?&?&?&?&?)]|?].
  - rewrite IH. split; [by right|]. by intros [[(?&?)|(?&?&?&?&?)]|?].
  - split; [|done]. intros _. left. left. by exists o.
  - case_bool_decide as Hlive; simpl.
    + unfold in_audit_ids. case_bool_decide as Hkey.
      * split; [|done]. intros _. left. right. exists m, live, stored. auto.
      * rewrite IH. split; [by right|].
        intros [[(?&?)|(?&?&?&[= <- <- <-]&[?|?])]|?]; done.
    + split; [|done]. intros _. left. right. exists m, live, stored. auto.
Qed.

(** Every handler leaves the persisted trails in place, adding at their end
    at most, and never touches the switch or the class, id, field values and
    relations of the instance, whether it returns or raises. *)
Theorem handlers_only_append self created s :
  only_appends s (on_post_init H self s).2
  ∧ only_appends s (on_post_save_create H self created s).2
  ∧ only_appends s (on_post_save_update H self created s).2
  ∧ only_appends s (on_pre_delete self s).2
  ∧ only_appends s (on_post_delete H self s).2.
Proof.
  assert (∀ n s0 s1, only_appends s s0 → grows_by (is_related_change n) s0 s1 →
            only_appends s s1) as Hgrow.
  { intros n s0 s1 (Hd & (rest & Htr) & Hm & Hi & Hv & Ha) (more & -> & _).
    unfold only_appends. simpl. split_and!; try done.
    exists (rest ++ more). by rewrite Htr, app_assoc. }
  assert (∀ t, only_appends s (after_save H self t s)) as Hsave.
  { intros t. unfold only_appends. simpl. split_and!; try done. by exists [t]. }
  split_and!.
  - unfold only_appends. simpl. split_and!; try done. exists []. by rewrite app_nil_r.
  - destruct (on_post_save_create_run H self created s)
      as [->|(diff & _ & _ & _ & ->)]; [apply only_appends_refl|].
    eapply Hgrow; [apply Hsave|apply create_related_audit_trail_grows_by].
  - destruct (on_post_save_update_run H self created s)
      as [->|(original & diff & _ & _ & _ & _ & _ & ->)]; [apply only_appends_refl|].
    eapply Hgrow; [apply Hsave|apply create_related_audit_trail_grows_by].
  - unfold on_pre_delete. py_run.
    destruct (DISABLE_AUDIT_TRAIL s) eqn:Hd; [apply only_appends_refl|].
    destruct (truthy (notify_related self)); simpl; [|apply only_appends_refl].
    unfold only_appends. simpl. split_and!; try done. exists []. by rewrite app_nil_r.
  - destruct (on_post_delete_run H self s) as [->|(diff & _ & _ & ->)];
      [apply only_appends_refl|].
    eapply Hgrow; [|apply create_deleted_related_audit_trail_grows_by].
    unfold only_appends. simpl. split_and!; try done. by eexists.
Qed.

(** An update that passes the gates and whose diff is computed and not empty
    persists one Updated trail with that diff; every trail it persists after
    it is a related-change trail pointing at the Updated trail's position;
    and the before-snapshot becomes the current one, also when the cascade
    raises. *)
Theorem on_post_save_update_persists self s original diff :
  passes_gates self s →
  _original_values (instance s) = Some original →
  get_changes H self (Some original) (Some (serialize_object H self (instance s)))
  = Ok diff →
  diff ≠ ∅ →
  ∃ rest,
    trails (on_post_save_update H self false s).2
    = trails s
      ++ with_changes diff (generate_trail Updated (entity_of (instance s))) :: rest
    ∧ Forall (is_related_change (length (trails s))) rest
    ∧ _original_values (instance (on_post_save_update H self false s).2)
      = Some (serialize_object H self (instance s)).
Proof.
  intros [Hd Hgate] Horig Hdiff Hne.
  assert (on_post_save_update H self false s
          = create_related_audit_trail self (length (trails s))
              (after_save H self
                 (with_changes diff (generate_trail Updated (entity_of (instance s)))) s))
    as ->.
  { unfold on_post_save_update. py_run. rewrite Hd, Hgate, Horig. simpl.
    rewrite Hdiff. simpl. by rewrite bool_decide_eq_false_2. }
  destruct (create_related_audit_trail_grows_by self (length (trails s))
              (after_save H self
                 (with_changes diff (generate_trail Updated (entity_of (instance s)))) s))
    as (rest & -> & Hrest).
  exists rest. split_and!; [|done|done].
  simpl. by rewrite <-app_assoc.
Qed.

(** What a creation that returns has persisted.  When a creation passes the
    gates, its diff is computed and the handler returns, the world it leaves
    is the one at the start with the Created trail persisted, the
    before-snapshot refreshed and then, relation by relation in the order of
    [notify_related], one related-change trail for the related object or for
    each current member of the related collection, and nothing else. *)
Theorem saved_relations_notified self s diff s' :
  passes_gates self s →
  get_changes H self (Some ∅) (Some (serialize_object H self (instance s)))
  = Ok diff →
  on_post_save_create H self true s = (Ok tt, s') →
  s' = add_trails
         (flat_map (λ field_name,
            related_change (length (trails s)) <$>
              notified_on_save (instance s) field_name)
            (default [] (notify_related self)))
         (after_save H self
            (with_changes diff (generate_trail Created (entity_of (instance s)))) s).
Proof.
  intros [Hd Hgate] Hdiff.
  unfold on_post_save_create. py_run. rewrite Hd, Hgate. simpl. rewrite Hdiff. simpl.
  unfold create_related_audit_trail.
  destruct (truthy (notify_related self)) eqn:Htruthy; simpl.
  - apply (for_each_returned
      (λ f, related_change (length (trails s)) <$> notified_on_save (instance s) f)
      _ _ (set_original_values (serialize_object H self (instance s)) (instance s)));
      [|done].
    intros f s0 s1 Hf Hs0. py_run. rewrite Hs0. simpl.
    unfold notified_on_save.
    destruct (attrs (instance s) f) as [| |o|m live stored].
    + discriminate.
    + intros [= <-]. by rewrite add_trails_nil.
    + rewrite notify_run. by intros [= <-].
    + rewrite notify_run. by intros [= <-].
  - intros [= <-].
    destruct (notify_related self) as [[|]|]; try done; simpl;
      by rewrite add_trails_nil.
Qed.

(** When a notify-relation is not an attribute of the instance, the creation
    raises AttributeError at that relation: the Created trail and the
    notifications through the relations before it stay persisted, those after
    it are not made. *)
Theorem unresolved_relation_raises self s diff before field_name after :
  passes_gates self s →
  notify_related self = Some (before ++ field_name :: after) →
  (∀ g, g ∈ before → attrs (instance s) g ≠ AttrMissing) →
  attrs (instance s) field_name = AttrMissing →
  get_changes H self (Some ∅) (Some (serialize_object H self (instance s)))
  = Ok diff →
  on_post_save_create H self true s
  = (Err AttributeError,
     add_trails
       (flat_map (λ g,
          related_change (length (trails s)) <$> notified_on_save (instance s) g)
          before)
       (after_save H self
          (with_changes diff (generate_trail Created (entity_of (instance s)))) s)).
Proof.
  intros [Hd Hgate] Hnotify Hbefore Hmissing Hdiff.
  unfold on_post_save_create. py_run. rewrite Hd, Hgate. simpl. rewrite Hdiff. simpl.
  unfold create_related_audit_trail. rewrite Hnotify.
  replace (truthy (Some (before ++ field_name :: after))) with true
    by (by destruct before).
  simpl.
  eapply for_each_stops.
  - apply (for_each_run
      (λ f, related_change (length (trails s)) <$> notified_on_save (instance s) f)
      _ _ (set_original_values (serialize_object H self (instance s)) (instance s)));
      [|done].
    intros f s0 Hf Hs0. py_run. rewrite Hs0. simpl.
    unfold notified_on_save. specialize (Hbefore f Hf).
    destruct (attrs (instance s) f) as [| |o|m live stored]; [done| | |].
    + by rewrite add_trails_nil.
    + by rewrite notify_run.
    + by rewrite notify_run.
  - py_run. by rewrite Hmissing.
Qed.

(** Saving again with nothing changed is silent: after a creation that
    passed the gates and computed its diff, the update handler run on the
    same instance returns without persisting anything. *)
Theorem second_save_is_silent self s diff :
  passes_gates self s →
  get_changes H self (Some ∅) (Some (serialize_object H self (instance s)))
  = Ok diff →
  on_post_save_update H self false (on_post_save_create H self true s).2
  = (Ok tt, (on_post_save_create H self true s).2).
Proof.
  intros [Hd Hgate] Hdiff.
  assert (on_post_save_create H self true s
          = create_related_audit_trail self (length (trails s))
              (after_save H self
                 (with_changes diff (generate_trail Created (entity_of (instance s)))) s))
    as ->.
  { unfold on_post_save_create. py_run. rewrite Hd, Hgate. simpl. by rewrite Hdiff. }
  destruct (create_related_audit_trail_grows_by self (length (trails s))
              (after_save H self
                 (with_changes diff (generate_trail Created (entity_of (instance s)))) s))
    as (rest & -> & _).
  unfold on_post_save_update. py_run. rewrite Hd.
  rewrite (no_parent_ext self (instance s)) by done. rewrite Hgate. simpl.
  rewrite (serialize_object_ext self (instance s)
             (set_original_values (serialize_object H self (instance s))
                (instance s))) by done.
  set (snapshot := serialize_object H self (instance s)) in *.
  assert (get_changes H self (Some snapshot) (Some snapshot) = Ok ∅) as ->.
  { revert Hdiff. unfold get_changes.
    destruct (model_class self) as [cls|]; [|done]. simpl. intros Hloop.
    apply get_changes_loop_same, Forall_forall. intros f Hf.
    destruct (get_changes_loop_Ok _ _ _ _ _ _ _ _ Hloop f Hf) as (_ & vn & _ & Hn).
    by exists vn. }
  done.
Qed.

End saves.

(** ** Activation *)

Lemma only_notified_refl w : only_notified w w.
Proof. by unfold only_notified. Qed.

Lemma only_notified_trans w1 w2 w3 :
  only_notified w1 w2 → only_notified w2 w3 → only_notified w1 w3.
Proof.
  intros (?&?&?&?&?&?) (?&?&?&?&?&?). unfold only_notified.
  split_and!; try congruence. by etrans.
Qed.

Lemma extends_registry_refl r : extends_registry r r.
Proof.
  unfold extends_registry. split_and!; [done|done|].
  intros c w Hw. exists w. split; [done|apply only_notified_refl].
Qed.

Lemma extends_registry_trans r1 r2 r3 :
  extends_registry r1 r2 → extends_registry r2 r3 → extends_registry r1 r3.
Proof.
  intros (Ht1 & Hr1 & Ha1) (Ht2 & Hr2 & Ha2). unfold extends_registry.
  split_and!; [set_solver|auto|].
  intros c w Hw. destruct (Ha1 c w Hw) as (w2 & Hw2 & Hn2).
  destruct (Ha2 c w2 Hw2) as (w3 & Hw3 & Hn3).
  exists w3. split; [done|]. by eapply only_notified_trans.
Qed.

Section activation.
Variable H : Host.

(** One turn of the loop for a relation that resolves: it returns, and what
    it keeps. *)
Lemma init_related_signals_for_keeps depth self cls attr_name r :
  registry_consistent r →
  model_class self = Some cls →
  resolves H cls attr_name →
  ∃ r',
    init_related_signals_for H (init_signals H depth) self attr_name r = (Ok tt, r')
    ∧ registry_consistent r'
    ∧ extends_registry r r'
    ∧ (activable H r → activable H r').
Proof.
  intros Hcons Hcls (related_model & related_name & Hd).
  unfold registry_consistent in *.
  assert (∃ related_field_name,
            related_of H self attr_name r = (Ok (related_model, related_field_name), r))
    as [related_field_name Hrel].
  { unfold related_of. py_run. rewrite Hcls. simpl.
    destruct Hd as [-> | ->]; simpl; [by eexists|].
    destruct (class_hasattr H r related_model related_name); by eexists. }
  unfold init_related_signals_for. unfold mbind at 1, Py_bind at 1.
  rewrite Hrel. py_run.
  destruct (audit r !! related_model) as [w|] eqn:Hw.
  - rewrite bool_decide_eq_true_2 by eauto. simpl.
    unfold add_notify_related. py_run. rewrite Hw. simpl.
    eexists. split; [done|]. simpl. split_and!.
    + intros c. simpl. rewrite (Hcons c).
      destruct (decide (c = related_model)) as [->|].
      * rewrite lookup_insert_eq, Hw. split; eauto.
      * by rewrite lookup_insert_ne.
    + unfold extends_registry. simpl. split_and!; [done|done|].
      intros c w0 Hw0. destruct (decide (c = related_model)) as [->|].
      * rewrite lookup_insert_eq. eexists. split; [done|].
        assert (w0 = w) as -> by congruence.
        unfold only_notified. simpl. split_and!; try done.
        destruct (notify_related w) as [[|]|]; simpl;
          [apply prefix_nil|by eexists|apply prefix_nil].
      * rewrite lookup_insert_ne by done. exists w0.
        split; [done|apply only_notified_refl].
    + intros Hact c w0. simpl. destruct (decide (c = related_model)) as [->|].
      * rewrite lookup_insert_eq. intros [= <-]. simpl. by apply Hact.
      * rewrite lookup_insert_ne by done. apply Hact.
  - rewrite bool_decide_eq_false_2 by (by intros [? [=]]). simpl.
    assert (related_model ∉ tracked_models r) as Hnew.
    { rewrite (Hcons related_model), Hw. by intros [? [=]]. }
    unfold contribute_to_class. py_run.
    rewrite bool_decide_eq_false_2 by done. simpl.
    unfold init_signals. unfold mbind at 1, Py_bind at 1.
    rewrite connect_signals_run. simpl.
    rewrite init_related_signals_no_track_related by done.
    unfold add_notify_related. py_run. rewrite lookup_insert_eq. simpl.
    eexists. split; [done|]. simpl. split_and!.
    + intros c. simpl. rewrite elem_of_union, elem_of_singleton, (Hcons c).
      destruct (decide (c = related_model)) as [->|].
      * rewrite lookup_insert_eq. split; eauto.
      * rewrite !lookup_insert_ne by done.
        split; [intros [?|?]; [congruence|done]|auto].
    + unfold extends_registry. simpl. split_and!.
      * apply union_subseteq_r.
      * intros rcv Hrcv. apply elem_of_connected. by left.
      * intros c w0 Hw0. destruct (decide (c = related_model)) as [->|];
          [congruence|].
        rewrite !lookup_insert_ne by done. exists w0.
        split; [done|apply only_notified_refl].
    + intros Hact c w0. simpl. destruct (decide (c = related_model)) as [->|].
      * rewrite lookup_insert_eq. intros [= <-]. simpl.
        split; [done|]. by intros a ?%elem_of_nil.
      * rewrite !lookup_insert_ne by done. apply Hact.
Qed.

(** The loop over relations that all resolve. *)
Lemma init_related_signals_loop_keeps depth self cls attr_names :
  model_class self = Some cls →
  (∀ a, a ∈ attr_names → resolves H cls a) →
  ∀ r, registry_consistent r →
  ∃ r',
    for_each attr_names (init_related_signals_for H (init_signals H depth) self) r
    = (Ok tt, r')
    ∧ registry_consistent r'
    ∧ extends_registry r r'
    ∧ (activable H r → activable H r').
Proof.
  intros Hcls. induction attr_names as [|a l IH]; intros Hall r Hcons.
  - exists r. split_and!; [done|done|apply extends_registry_refl|done].
  - destruct (init_related_signals_for_keeps depth self cls a r)
      as (r1 & Hrun & Hcons1 & Hext1 & Hact1); [done|done|apply Hall; constructor|].
    destruct (IH (λ b Hb, Hall b (list_elem_of_further _ _ _ Hb)) r1 Hcons1)
      as (r2 & Hrun2 & Hcons2 & Hext2 & Hact2).
    exists r2. simpl. unfold mbind, Py_bind. rewrite Hrun.
    split_and!; [done|done|by eapply extends_registry_trans|auto].
Qed.

(** Resolving the tracked relations of a watcher, all of them resolvable
    relations of its class, returns and keeps the registry in order: tracked
    classes are those with a watcher, none is dropped, no receiver is
    disconnected, and every watcher that was attached is still attached,
    changed at most by notify-relations appended to its list. *)
Theorem init_related_signals_keeps depth self cls r :
  registry_consistent r →
  model_class self = Some cls →
  (∀ attr_name, attr_name ∈ default [] (track_related self) →
     resolves H cls attr_name) →
  ∃ r',
    init_related_signals H (S depth) self r = (Ok tt, r')
    ∧ registry_consistent r'
    ∧ extends_registry r r'.
Proof.
  intros Hcons Hcls Hall.
  destruct (truthy (track_related self)) eqn:Htrack.
  - rewrite init_related_signals_loop by done.
    destruct (init_related_signals_loop_keeps depth self cls
                (default [] (track_related self)) Hcls Hall r Hcons)
      as (r' & ? & ? & ? & _).
    by exists r'.
  - rewrite init_related_signals_no_track_related by done.
    exists r. split_and!; [done|done|apply extends_registry_refl].
Qed.

(** A tracked name that is not a relation of the class aborts the resolution
    with AttributeError; the names before it have been resolved by then and
    stay so. *)
Theorem unknown_relation_raises depth self cls before attr_name after r :
  registry_consistent r →
  model_class self = Some cls →
  track_related self = Some (before ++ attr_name :: after) →
  (∀ a, a ∈ before → resolves H cls a) →
  class_attr H cls attr_name = None
  ∨ class_attr H cls attr_name = Some PlainAttribute →
  ∃ r',
    for_each before (init_related_signals_for H (init_signals H depth) self) r
    = (Ok tt, r')
    ∧ init_related_signals H (S depth) self r = (Err AttributeError, r').
Proof.
  intros Hcons Hcls Htrack Hbefore Hunknown.
  destruct (init_related_signals_loop_keeps depth self cls before Hcls Hbefore r Hcons)
    as (r' & Hrun & _).
  exists r'. split; [done|].
  rewrite init_related_signals_loop by (rewrite Htrack; by destruct before).
  rewrite Htrack. simpl.
  eapply for_each_stops; [done|].
  unfold init_related_signals_for, related_of. py_run. rewrite Hcls. simpl.
  by destruct Hunknown as [-> | ->].
Qed.

(** Activation.  In a registry where tracked classes are those with a
    watcher and every watcher knows its class and tracks only resolvable
    relations of it, [init_audit_instances], iterating the classes tracked at
    that moment in any order, returns; afterwards each of those classes has
    its five receivers connected, and the registry is in order as before. *)
Theorem init_audit_instances_wires depth order r :
  registry_consistent r →
  activable H r →
  (∀ cls, cls ∈ order ↔ cls ∈ tracked_models r) →
  ∃ r',
    init_audit_instances H (S depth) order r = (Ok tt, r')
    ∧ registry_consistent r'
    ∧ activable H r'
    ∧ extends_registry r r'
    ∧ ∀ cls rcv, cls ∈ tracked_models r → rcv ∈ receivers_of (Some cls) →
        rcv ∈ receivers r'.
Proof.
  intros Hcons Hact Horder.
  assert (∀ l r1, registry_consistent r1 → activable H r1 →
            (∀ c, c ∈ l → c ∈ tracked_models r1) →
            ∃ r', init_audit_instances H (S depth) l r1 = (Ok tt, r')
                  ∧ registry_consistent r' ∧ activable H r'
                  ∧ extends_registry r1 r'
                  ∧ ∀ c rcv, c ∈ l → rcv ∈ receivers_of (Some c) →
                      rcv ∈ receivers r') as Hloop.
  { clear. induction l as [|c l IH]; intros r1 Hcons Hact Hl.
    - exists r1. split_and!; [done|done|done|apply extends_registry_refl|].
      by intros c rcv ?%elem_of_nil.
    - assert (is_Some (audit r1 !! c)) as [w Hw].
      { apply Hcons, Hl. constructor. }
      destruct (Hact c w Hw) as [Hcls Hres].
      set (r2 := {| tracked_models := tracked_models r1; audit := audit r1;
                    receivers := connected (receivers_of (Some c)) (receivers r1) |}).
      destruct (init_related_signals_loop_keeps depth w c
                  (default [] (track_related w)) Hcls Hres r2)
        as (r3 & Hrun3 & Hcons3 & Hext3 & Hact3); [done|].
      assert (init_signals H (S depth) w r1 = (Ok tt, r3)) as Hsig.
      { unfold init_signals. unfold mbind, Py_bind.
        rewrite connect_signals_run, Hcls. fold r2.
        destruct (truthy (track_related w)) eqn:Htrack.
        - by rewrite init_related_signals_loop.
        - rewrite init_related_signals_no_track_related by done.
          destruct (track_related w) as [[|]|]; try done;
            simpl in Hrun3; by injection Hrun3 as <-. }
      destruct (IH r3 Hcons3 (Hact3 Hact)) as (r4 & Hrun4 & Hcons4 & Hact4 & Hext4 & Hrcv4).
      { intros c' Hc'. apply Hext3. apply Hl. by constructor. }
      exists r4. split_and!; try done.
      + unfold init_audit_instances in *. simpl. py_run. rewrite Hw. simpl.
        rewrite Hsig. exact Hrun4.
      + eapply extends_registry_trans; [|done].
        eapply extends_registry_trans; [|done].
        unfold extends_registry. simpl. split_and!; [done| |].
        * intros rcv ?. apply elem_of_connected. by left.
        * intros c' w' Hw'. exists w'. split; [done|apply only_notified_refl].
      + intros c' rcv [->|Hc']%elem_of_cons Hrcv; [|by eapply Hrcv4].
        apply Hext4, Hext3. simpl. apply elem_of_connected. by right. }
  destruct (Hloop order r Hcons Hact) as (r' & ? & ? & ? & ? & Hrcv).
  { intros c. apply Horder. }
  exists r'. split_and!; try done.
  intros c rcv Hc. apply Hrcv. by apply Horder.
Qed.

(** Resolving a reverse relation notes the back-reference name at the end of
    the related model's notify-relations without looking whether it is
    there: resolving it once more notes it a second time. *)
Theorem relation_resolved_again depth self cls attr_name related_model
    related_field_name r :
  registry_consistent r →
  model_class self = Some cls →
  class_attr H cls attr_name
  = Some (ReverseDescriptor related_model related_field_name) →
  ∃ r1 r2 w1 w2,
    init_related_signals_for H (init_signals H depth) self attr_name r = (Ok tt, r1)
    ∧ init_related_signals_for H (init_signals H depth) self attr_name r1 = (Ok tt, r2)
    ∧ audit r1 !! related_model = Some w1
    ∧ audit r2 !! related_model = Some w2
    ∧ notify_related w1
      = Some (default [] (audit r !! related_model ≫= notify_related)
              ++ [related_field_name])
    ∧ notify_related w2
      = Some (default [] (audit r !! related_model ≫= notify_related)
              ++ [related_field_name; related_field_name]).
Proof.
  intros Hcons Hcls Hattr.
  assert (∀ r0, registry_consistent r0 →
            ∃ r' w',
              init_related_signals_for H (init_signals H depth) self attr_name r0
              = (Ok tt, r')
              ∧ registry_consistent r'
              ∧ audit r' !! related_model = Some w'
              ∧ notify_related w'
                = Some (default [] (audit r0 !! related_model ≫= notify_related)
                        ++ [related_field_name])) as Hturn.
  { intros r0 Hcons0.
    destruct (init_related_signals_for_keeps depth self cls attr_name r0)
      as (r' & Hrun & Hcons' & _); [done|done|by eexists _, _; left|].
    exists r'.
    cut (∃ w', audit r' !! related_model = Some w'
               ∧ notify_related w'
                 = Some (default [] (audit r0 !! related_model ≫= notify_related)
                         ++ [related_field_name])).
    { intros (w' & ? & ?). by exists w'. }
    clear Hcons'. revert Hrun.
    unfold init_related_signals_for, related_of. py_run. rewrite Hcls. simpl.
    rewrite Hattr. simpl.
    destruct (audit r0 !! related_model) as [w|] eqn:Hw.
    - rewrite bool_decide_eq_true_2 by eauto. simpl.
      unfold add_notify_related. py_run. rewrite Hw. simpl.
      intros [= <-]. eexists. split; [simpl; apply lookup_insert_eq|].
      simpl. by destruct (notify_related w) as [[|]|].
    - rewrite bool_decide_eq_false_2 by (by intros [? [=]]). simpl.
      unfold contribute_to_class. py_run.
      rewrite bool_decide_eq_false_2; last first.
      { unfold registry_consistent in Hcons0. rewrite (Hcons0 related_model), Hw.
        by intros [? [=]]. }
      simpl. unfold init_signals. unfold mbind at 1, Py_bind at 1.
      rewrite connect_signals_run. simpl.
      rewrite init_related_signals_no_track_related by done.
      unfold add_notify_related. py_run. rewrite lookup_insert_eq. simpl.
      intros [= <-]. eexists. split; [simpl; apply lookup_insert_eq|done]. }
  destruct (Hturn r Hcons) as (r1 & w1 & Hrun1 & Hcons1 & Hw1 & Hn1).
  destruct (Hturn r1 Hcons1) as (r2 & w2 & Hrun2 & _ & Hw2 & Hn2).
  exists r1, r2, w1, w2. split_and!; try done.
  rewrite Hn2, Hw1. simpl. rewrite Hn1. simpl. by rewrite <-app_assoc.
Qed.

End activation.

(** ** Deleting without a capture *)

Section uncaptured.
Variable H : Host.

(** The post-delete step reads the capture of the pre-delete step without a
    default.  When the instance has none and a notify-relation evaluates to a
    manager, the step raises AttributeError there: the Deleted trail and the
    notifications of the related objects before that relation stay
    persisted. *)
Theorem post_delete_without_capture_raises self s diff before field_name after
    m live stored :
  passes_gates self s →
  notify_related self = Some (before ++ field_name :: after) →
  (∀ g, g ∈ before →
     attrs (instance s) g = AttrNone ∨ ∃ o, attrs (instance s) g = AttrObject o) →
  attrs (instance s) field_name = AttrManager m live stored →
  _audit_ids_to_notify_related_deletion (instance s) = None →
  get_changes H self (Some (serialize_object H self (instance s))) (Some ∅)
  = Ok diff →
  on_post_delete H self s
  = (Err AttributeError,
     add_trails
       (with_changes diff (generate_trail Deleted (entity_of (instance s)))
        :: flat_map (λ g,
             related_change (length (trails s)) <$> notified_on_delete (instance s) g)
             before)
       s).
Proof.
  intros [Hd Hgate] Hnotify Hbefore Hmanager Hnone Hdiff.
  unfold on_post_delete. py_run. rewrite Hd, Hgate. simpl. rewrite Hdiff. simpl.
  unfold create_deleted_related_audit_trail. rewrite Hnotify.
  replace (truthy (Some (before ++ field_name :: after))) with true
    by (by destruct before).
  simpl.
  set (t := with_changes diff (generate_trail Deleted (entity_of (instance s)))).
  eapply (for_each_stops _ _ _ _ _ _
            (add_trails
               (t :: flat_map (λ g,
                  related_change (length (trails s)) <$>
                    notified_on_delete (instance s) g) before) s)).
  - rewrite (for_each_run
      (λ g, related_change (length (trails s)) <$> notified_on_delete (instance s) g)
      before _ (instance s)); [| |done].
    + f_equal. apply (add_trails_app [t]).
    + intros g s0 Hg Hs0. py_run. rewrite Hs0.
      unfold notified_on_delete.
      destruct (Hbefore g Hg) as [-> | [o ->]].
      * by rewrite add_trails_nil.
      * by rewrite notify_run.
  - py_run. by rewrite Hmanager, Hnone.
Qed.

End uncaptured.

(** ** More concrete runs on the blog *)

Section more_blog.
Import Blog.

Local Ltac in_list := repeat (first [apply list_elem_of_here | apply list_elem_of_further]).

Lemma comment_declared_consistent : registry_consistent comment_declared.
Proof.
  intros c. unfold comment_declared. simpl. rewrite elem_of_singleton.
  destruct (decide (c = "Comment")) as [->|Hne].
  - rewrite lookup_singleton_eq. split; eauto.
  - rewrite lookup_singleton_ne by done. split; [done|by intros [? [=]]].
Qed.

Lemma post_declared_consistent : registry_consistent post_declared.
Proof.
  intros c. unfold post_declared. simpl. rewrite elem_of_singleton.
  destruct (decide (c = "Post")) as [->|Hne].
  - rewrite lookup_singleton_eq. split; eauto.
  - rewrite lookup_singleton_ne by done. split; [done|by intros [? [=]]].
Qed.

Lemma nothing_declared_consistent : registry_consistent nothing_declared.
Proof.
  intros c. unfold nothing_declared. simpl. rewrite lookup_empty.
  split; [by intros ?%not_elem_of_empty|by intros [? [=]]].
Qed.

Lemma comment_declared_activable : activable host comment_declared.
Proof.
  intros c w. unfold comment_declared. simpl.
  destruct (decide (c = "Comment")) as [->|Hne].
  - rewrite lookup_singleton_eq. intros [= <-]. split; [done|].
    intros a ->%list_elem_of_singleton. exists "Post", "comment". by right.
  - by rewrite lookup_singleton_ne.
Qed.

Lemma get_changes_lookup_witness :
  ∃ diff,
    get_changes host post_audit (Some ∅)
      (Some (serialize_object host post_audit a_post)) = Ok diff
    ∧ diff !! "status"
      = Some {| old_value := VNone; new_value := VStr "[#1] draft" |}.
Proof.
  eexists. split; [vm_compute; reflexivity|].
  apply (get_changes_lookup host post_audit "Post" (Some ∅)
           (Some (serialize_object host post_audit a_post))).
  - reflexivity.
  - vm_compute. reflexivity.
  - split_and!; [in_list|reflexivity|reflexivity|discriminate].
Defined.

Lemma get_changes_swap_witness :
  ∃ diff,
    get_changes host post_audit (Some ∅)
      (Some (serialize_object host post_audit a_post)) = Ok diff
    ∧ get_changes host post_audit
        (Some (serialize_object host post_audit a_post)) (Some ∅)
      = Ok (swap_change <$> diff).
Proof.
  eexists. split; [vm_compute; reflexivity|].
  apply (get_changes_swap host post_audit (Some ∅)
           (Some (serialize_object host post_audit a_post))).
  vm_compute. reflexivity.
Defined.

Lemma changed_reference_is_recorded_witness :
  ∃ diff change,
    get_changes host comment_audit (Some ∅) (Some {[ "post" := VInt 1 ]}) = Ok diff
    ∧ diff !! "post" = Some change
    ∧ get_fk_value host comment_audit "post" (VInt 1) = Ok (new_value change).
Proof.
  destruct (get_changes host comment_audit (Some ∅) (Some {[ "post" := VInt 1 ]}))
    as [diff|] eqn:Hdiff; [|vm_compute in Hdiff; discriminate].
  destruct (changed_reference_is_recorded host comment_audit "Comment" (Some ∅)
              (Some {[ "post" := VInt 1 ]}) diff "post" f_post)
    as (change & Hchange & _ & Hnew);
    [reflexivity|exact Hdiff|in_list|reflexivity|reflexivity|reflexivity| |].
  - intros [[_ Hnone]|(n & Hn & _)]; discriminate.
  - exists diff, change. split_and!; [reflexivity|exact Hchange|exact Hnew].
Defined.

Lemma is_parent_object_exists_iff_witness :
  is_parent_object_exists (shadow "Comment" "post") (a_comment 1 (AttrObject post_1))
  = Ok true
  ∧ ¬ ∃ field_name, field_name ∈ ["post"] ∧
        ((∃ o, attrs (a_comment 1 AttrNone) field_name = AttrObject o)
         ∨ ∃ m live stored,
             attrs (a_comment 1 AttrNone) field_name = AttrManager m live stored
             ∧ (live ≠ []
                ∨ is_Some (default ∅
                             (_audit_ids_to_notify_related_deletion
                                (a_comment 1 AttrNone)) !! field_name))).
Proof.
  split; [reflexivity|]. intros Hparent.
  apply (is_parent_object_exists_iff (shadow "Comment" "post")
           (a_comment 1 AttrNone) false) in Hparent; [discriminate|reflexivity].
Defined.

Lemma on_post_save_update_persists_witness :
  ∃ diff rest,
    trails (on_post_save_update host post_audit false (world false a_post_edited)).2
    = with_changes diff (generate_trail Updated post_1) :: rest
    ∧ diff !! "title" = Some {| old_value := VStr "Hi"; new_value := VStr "Hello" |}.
Proof.
  edestruct (on_post_save_update_persists host post_audit (world false a_post_edited))
    as (rest & Htrails & _ & _);
    [split; reflexivity|reflexivity|vm_compute; reflexivity| |].
  - intros Hempty. apply (f_equal (λ d : gmap string Change, d !! "title")) in Hempty.
    vm_compute in Hempty. discriminate.
  - eexists _, rest. split; [exact Htrails|]. vm_compute. reflexivity.
Defined.

Lemma saved_relations_notified_witness :
  ∃ diff,
    on_post_save_create host (shadow "Comment" "post") true
      (world false (a_comment 1 (AttrObject post_1)))
    = (Ok tt,
       add_trails [related_change 0 post_1]
         (after_save host (shadow "Comment" "post")
            (with_changes diff
               (generate_trail Created {| entity_model := "Comment"; entity_id := 5 |}))
            (world false (a_comment 1 (AttrObject post_1))))).
Proof.
  destruct (get_changes host (shadow "Comment" "post") (Some ∅)
              (Some (serialize_object host (shadow "Comment" "post")
                       (a_comment 1 (AttrObject post_1)))))
    as [diff|] eqn:Hdiff; [|vm_compute in Hdiff; discriminate].
  exists diff.
  destruct (on_post_save_create host (shadow "Comment" "post") true
              (world false (a_comment 1 (AttrObject post_1))))
    as [[[]|e] s'] eqn:Hrun; [|vm_compute in Hrun; discriminate].
  f_equal.
  apply (saved_relations_notified host (shadow "Comment" "post")
           (world false (a_comment 1 (AttrObject post_1))) diff s');
    [split; reflexivity|exact Hdiff|exact Hrun].
Defined.

Lemma unresolved_relation_raises_witness :
  ∃ diff,
    on_post_save_create host comment_misnotifying true
      (world false (a_comment 1 AttrNone))
    = (Err AttributeError,
       after_save host comment_misnotifying
         (with_changes diff
            (generate_trail Created {| entity_model := "Comment"; entity_id := 5 |}))
         (world false (a_comment 1 AttrNone))).
Proof.
  eexists.
  erewrite (unresolved_relation_raises host comment_misnotifying
              (world false (a_comment 1 AttrNone)) _ [] "posts" []).
  - reflexivity.
  - split; reflexivity.
  - reflexivity.
  - by intros g ?%elem_of_nil.
  - reflexivity.
  - vm_compute. reflexivity.
Defined.

Lemma second_save_is_silent_witness :
  on_post_save_update host post_audit false
    (on_post_save_create host post_audit true (world false a_post)).2
  = (Ok tt, (on_post_save_create host post_audit true (world false a_post)).2).
Proof.
  eapply (second_save_is_silent host post_audit (world false a_post)).
  - split; reflexivity.
  - vm_compute. reflexivity.
Defined.

Lemma init_related_signals_keeps_witness :
  ∃ r',
    init_related_signals host 1 comment_tracking comment_declared = (Ok tt, r')
    ∧ registry_consistent r'
    ∧ extends_registry comment_declared r'.
Proof.
  apply (init_related_signals_keeps host 0 comment_tracking "Comment" comment_declared).
  - apply comment_declared_consistent.
  - reflexivity.
  - intros a ->%list_elem_of_singleton. exists "Post", "comment". by right.
Defined.

Lemma unknown_relation_raises_witness :
  init_related_signals host 1 post_mistracking nothing_declared
  = (Err AttributeError, nothing_declared).
Proof.
  destruct (unknown_relation_raises host 0 post_mistracking "Post" [] "nope" []
              nothing_declared)
    as (r' & Hbefore & Hrun).
  - apply nothing_declared_consistent.
  - reflexivity.
  - reflexivity.
  - by intros a ?%elem_of_nil.
  - by left.
  - injection Hbefore as <-. exact Hrun.
Defined.

Lemma init_audit_instances_wires_witness :
  ∃ r',
    init_audit_instances host 1 ["Comment"] comment_declared = (Ok tt, r')
    ∧ ∀ rcv, rcv ∈ receivers_of (Some "Comment") → rcv ∈ receivers r'.
Proof.
  destruct (init_audit_instances_wires host 0 ["Comment"] comment_declared)
    as (r' & Hrun & _ & _ & _ & Hwired).
  - apply comment_declared_consistent.
  - apply comment_declared_activable.
  - intros c. unfold comment_declared. simpl.
    by rewrite list_elem_of_singleton, elem_of_singleton.
  - exists r'. split; [exact Hrun|]. intros rcv. apply Hwired.
    unfold comment_declared. simpl. by apply elem_of_singleton.
Defined.

Lemma relation_resolved_again_witness :
  ∃ r1 r2 w2,
    init_related_signals_for host (init_signals host 0) post_tracking "comment_set"
      post_declared = (Ok tt, r1)
    ∧ init_related_signals_for host (init_signals host 0) post_tracking "comment_set"
        r1 = (Ok tt, r2)
    ∧ audit r2 !! "Comment" = Some w2
    ∧ notify_related w2 = Some ["post"; "post"].
Proof.
  destruct (relation_resolved_again host 0 post_tracking "Post" "comment_set"
              "Comment" "post" post_declared)
    as (r1 & r2 & w1 & w2 & Hrun1 & Hrun2 & _ & Hw2 & _ & Hnotify).
  - apply post_declared_consistent.
  - reflexivity.
  - reflexivity.
  - exists r1, r2, w2. split_and!; [exact Hrun1|exact Hrun2|exact Hw2|exact Hnotify].
Defined.

Lemma post_delete_without_capture_raises_witness :
  ∃ diff,
    on_post_delete host post_notifying (world false post_before_delete)
    = (Err AttributeError,
       add_trails [with_changes diff (generate_trail Deleted post_1)]
         (world false post_before_delete)).
Proof.
  eexists.
  erewrite (post_delete_without_capture_raises host post_notifying
              (world false post_before_delete) _ [] "comment_set" []).
  - reflexivity.
  - split; reflexivity.
  - reflexivity.
  - by intros g ?%elem_of_nil.
  - reflexivity.
  - reflexivity.
  - vm_compute. reflexivity.
Defined.

End more_blog.

(** ** Two more runs: a diff that raises, and the watcher of a related model *)

Section blog_revisited.
Import Blog.

(** C4, as first stated, fails: comment 5 points at post 7, which is gone.
    Its creation and its deletion pass the switch and the parent gate, but
    the diff raises DoesNotExist and neither persists a trail. *)
Lemma always_one_record_counterexample :
  passes_gates comment_audit (world false (a_comment 7 AttrNone))
  ∧ on_post_save_create host comment_audit true (world false (a_comment 7 AttrNone))
    = (Err DoesNotExist, world false (a_comment 7 AttrNone))
  ∧ on_post_delete host comment_audit (world false (a_comment 7 AttrNone))
    = (Err DoesNotExist, world false (a_comment 7 AttrNone))
  ∧ trails (world false (a_comment 7 AttrNone)) = [].
Proof. split_and!; [split; reflexivity|vm_compute; reflexivity..]. Qed.

(** C6, as first stated, fails: the watcher that resolving [comment_set] of
    [Post] attaches to [Comment] is not one without tracked fields.  Its
    field list is unset, the differ iterates all fields of [Comment], and the
    creation of a comment on post 1 persists a Created trail with the
    comment's own [text] and [post] in its changes. *)
Lemma shadow_tracks_fields_counterexample :
  (init_related_signals_for host (init_signals host 0) post_tracking "comment_set"
     post_declared).1 = Ok tt
  ∧ audit (init_related_signals_for host (init_signals host 0) post_tracking
             "comment_set" post_declared).2 !! "Comment"
    = Some (shadow "Comment" "post")
  ∧ diff_fields host (shadow "Comment" "post") "Comment" = ["id"; "post"; "text"]
  ∧ trails (on_post_save_create host (shadow "Comment" "post") true
              (world false (a_comment 1 (AttrObject post_1)))).2 !! 0%nat
    = Some (with_changes
              {[ "text" := {| old_value := VNone; new_value := VStr "first" |};
                 "post" := {| old_value := VNone; new_value := VStr "[#1] Hi" |} ]}
              (generate_trail Created {| entity_model := "Comment"; entity_id := 5 |})).
Proof. split_and!; vm_compute; reflexivity. Qed.

End blog_revisited.
